(** * Monte Carlo pi speed test: the numba estimator and its timing harness

    A shallow embedding of [pi_estimates/Cython_and_Numba/single_test_run.py]:
    the estimator [estimate_pi_numba], the harness [run_test], the argument
    converter [positive_integer] and the command line front end [main].

    Python values are modelled as follows.
    - [int] is [Z].
    - [float] is a rational of [Q]; every arithmetic operation rounds its exact
      result to the nearest binary64 value, ties to even ([round64]).
      Infinities and NaN are not represented.
    - [str] is [string]; standard output is a list of lines.
    - Side effects (the random generator, the wall clock, [print]) are threaded
      through a [World]; a raised exception keeps the world it was raised in.

    The body of the [@njit] function is read with the meaning Python gives
    it. *)

From Stdlib Require Import ZArith QArith Qround Qabs Qpower Qreduction.
From Stdlib Require Import List String Ascii Bool Lia.
Import ListNotations.

Local Open Scope Z_scope.

(** ** Floating point *)

Module PyFloat.

(** [2 ^ e] for any integer exponent. *)
Definition pow2 (e : Z) : Q := Qpower 2 e.

(** Exponent of the binade of a positive rational: the [e] with
    [2^e <= a < 2^(e+1)]. *)
Definition binade (a : Q) : Z :=
  let e0 := Z.log2 (Qnum a) - Z.log2 (Zpos (Qden a)) in
  if Qle_bool (pow2 e0) a then e0 else e0 - 1.

(** Nearest integer, ties to the even neighbour. *)
Definition round_half_even (q : Q) : Z :=
  let f := Qfloor q in
  match Qcompare (q - inject_Z f) (1 # 2) with
  | Lt => f
  | Gt => f + 1
  | Eq => if Z.even f then f else f + 1
  end.

(** Rounding to binary64: 53 significant bits, smallest exponent -1022. *)
Definition round64 (q : Q) : Q :=
  match Qnum q with
  | Z0 => 0%Q
  | _ =>
      let a := Qabs q in
      let e := Z.max (binade a) (-1022) in
      let ulp := pow2 (e - 52) in
      let m := (inject_Z (round_half_even (a / ulp)) * ulp)%Q in
      Qred (if Qnum q <? 0 then Qopp m else m)
  end.

(** [float(n)] for an [int].  An [int] beyond the binary64 range, for
    which Python raises [OverflowError], is outside the model. *)
Definition of_int (n : Z) : Q := round64 (inject_Z n).

(** [a + b], [a - b], [a * b] on floats. *)
Definition add (a b : Q) : Q := round64 (a + b).
Definition sub (a b : Q) : Q := round64 (a - b).
Definition mul (a b : Q) : Q := round64 (a * b).

(** [x ** 2] on a float. *)
Definition sqr (x : Q) : Q := mul x x.

(** [a <= b] on floats. *)
Definition leb (a b : Q) : bool := Qle_bool a b.

(** ** Decimal text *)

Definition digit_char (d : Z) : ascii := ascii_of_nat (48 + Z.to_nat d).

Fixpoint decimal_digits (fuel : nat) (n : Z) (acc : string) : string :=
  match fuel with
  | O => acc
  | S fuel' =>
      let acc' := String (digit_char (n mod 10)) acc in
      if n / 10 =? 0 then acc' else decimal_digits fuel' (n / 10) acc'
  end.

(** Decimal numeral of a natural number given as a non-negative [Z]. *)
Definition str_nat (n : Z) : string :=
  decimal_digits (S (Z.to_nat (Z.log2 n))) n "".

(** The four digits of [n mod 10000], most significant first. *)
Definition four_digits (n : Z) : string :=
  String (digit_char ((n / 1000) mod 10))
    (String (digit_char ((n / 100) mod 10))
       (String (digit_char ((n / 10) mod 10))
          (String (digit_char (n mod 10)) ""))).

Definition sign_text (q : Q) : string :=
  if Qnum q <? 0 then "-"%string else ""%string.

(** [format(q, ".4f")]: the exact value rounded half-even to four decimals.
    A negative value keeps its sign even when it rounds to zero. *)
Definition format_4f (q : Q) : string :=
  let m := round_half_even (Qabs q * inject_Z 10000) in
  (sign_text q ++ str_nat (m / 10000)%Z ++ "." ++ four_digits m)%string.

(** Decimal exponent of a positive rational: the [e] with
    [10^e <= a < 10^(e+1)]. *)
Definition pow10 (e : Z) : Q := Qpower 10 e.

Definition decade (a : Q) : Z :=
  let digits n := Z.of_nat (String.length (str_nat n)) in
  let e0 := digits (Qnum a) - digits (Zpos (Qden a)) in
  if Qle_bool (pow10 (e0 + 1)) a then e0 + 1
  else if Qle_bool (pow10 e0) a then e0 else e0 - 1.

(** Exponent field of the [e] format: a sign and at least two digits. *)
Definition exponent_text (e : Z) : string :=
  ((if (e <? 0)%Z then "e-" else "e+") ++
   (if (Z.abs e <? 10)%Z then "0" else "") ++ str_nat (Z.abs e))%string.

(** [format(q, ".2e")]: three significant digits, half-even. *)
Definition format_2e (q : Q) : string :=
  match Qnum q with
  | Z0 => "0.00e+00"%string
  | _ =>
      let a := Qabs q in
      let e := decade a in
      let m := round_half_even (a / pow10 (e - 2)) in
      let '(m, e) := if m =? 1000 then (100, e + 1) else (m, e) in
      (sign_text q ++ String (digit_char (m / 100)%Z) "" ++ "." ++
       String (digit_char ((m / 10) mod 10)%Z)
         (String (digit_char (m mod 10)%Z) "") ++ exponent_text e)%string
  end.

(** [s] without its trailing zeros. *)
Fixpoint strip_zeros (s : string) : string :=
  match s with
  | EmptyString => EmptyString
  | String c rest =>
      match strip_zeros rest with
      | EmptyString => if (c =? "0")%char then EmptyString else String c EmptyString
      | rest' => String c rest'
      end
  end.

Fixpoint zeros (k : nat) : string :=
  match k with
  | O => EmptyString
  | S k' => String "0" (zeros k')
  end.

(** The shortest numeral of [p], [p+1], ... significant digits that
    [round64] reads back as [a]; the digits and the decimal exponent of the
    first of them. *)
Fixpoint shortest_digits (fuel : nat) (p : Z) (a : Q) (e : Z) : Z * Z :=
  let m := round_half_even (a / pow10 (e - p + 1)) in
  let '(m, e') := if (m =? 10 ^ p)%Z then (10 ^ (p - 1), e + 1) else (m, e) in
  match fuel with
  | O => (m, e')
  | S fuel' =>
      if Qeq_bool (round64 (inject_Z m * pow10 (e' - p + 1))) a then (m, e')
      else shortest_digits fuel' (p + 1) a e
  end.

(** [repr(q)] of CPython: the shortest digits that read back as [q], in
    positional notation for exponents from -4 to 15. *)
Definition repr (q : Q) : string :=
  match Qnum q with
  | Z0 => "0.0"%string
  | _ =>
      let a := Qabs q in
      let '(m, e) := shortest_digits 16 1 a (decade a) in
      let ds := strip_zeros (str_nat m) in
      let nd := Z.of_nat (String.length ds) in
      let body :=
        if ((e <? -4) || (16 <=? e))%Z then
          (substring 0 1 ds ++
           (if (1 <? nd)%Z then "." ++ substring 1 (String.length ds) ds else "") ++
           exponent_text e)%string
        else if (e <? 0)%Z then
          ("0." ++ zeros (Z.to_nat (- e - 1)) ++ ds)%string
        else if (nd <=? e + 1)%Z then
          (ds ++ zeros (Z.to_nat (e + 1 - nd)) ++ ".0")%string
        else
          (substring 0 (Z.to_nat (e + 1)) ds ++ "." ++
           substring (Z.to_nat (e + 1)) (String.length ds) ds)%string
      in (sign_text q ++ body)%string
  end.

(** Recognisers for the printed shapes. *)
Definition is_digit (c : ascii) : bool :=
  ((48 <=? nat_of_ascii c) && (nat_of_ascii c <=? 57))%nat.

Fixpoint all_digits (s : string) : bool :=
  match s with
  | EmptyString => true
  | String c s' => is_digit c && all_digits s'
  end.

(** Digits, a point, then exactly four digits; [seen] records that at least
    one integer digit was read. *)
Fixpoint int_point_frac4 (s : string) (seen : bool) : bool :=
  match s with
  | EmptyString => false
  | String "."%char rest =>
      seen && (String.length rest =? 4)%nat && all_digits rest
  | String c rest => is_digit c && int_point_frac4 rest true
  end.

(** A decimal number with an optional sign and exactly four fractional
    digits. *)
Definition is_fixed4 (s : string) : bool :=
  match s with
  | String "-"%char rest => int_point_frac4 rest false
  | _ => int_point_frac4 s false
  end.

(** A decimal number without a sign and with exactly four fractional
    digits. *)
Definition is_unsigned_fixed4 (s : string) : bool := int_point_frac4 s false.

End PyFloat.

(** ** Text of command line tokens *)

Module PyStr.

(** Characters [str.strip] removes. *)
Definition is_space (c : ascii) : bool :=
  let n := nat_of_ascii c in
  ((n =? 32) || ((9 <=? n) && (n <=? 13)) || ((28 <=? n) && (n <=? 31)))%nat.

Fixpoint lstrip (s : list ascii) : list ascii :=
  match s with
  | c :: s' => if is_space c then lstrip s' else s
  | [] => []
  end.

Definition strip (s : list ascii) : list ascii :=
  rev (lstrip (rev (lstrip s))).

(** Digits with single underscores between them; [prev] tells that the
    previous character was a digit. *)
Fixpoint parse_digits (s : list ascii) (acc : Z) (prev : bool) : option Z :=
  match s with
  | [] => if prev then Some acc else None
  | c :: s' =>
      if PyFloat.is_digit c
      then parse_digits s' (10 * acc + (Z.of_nat (nat_of_ascii c) - 48)) true
      else if (c =? "_")%char && prev then parse_digits s' acc false
      else None
  end.

(** Limit on the number of digits [int] converts (sys.int_info). *)
Definition max_str_digits : nat := 4300.

(** [int(value)] on a string, base ten; [None] stands for [ValueError]. *)
Definition py_int (value : string) : option Z :=
  let body := strip (list_ascii_of_string value) in
  if (max_str_digits <? List.length (filter PyFloat.is_digit body))%nat then None
  else
    match body with
    | "-"%char :: r => option_map Z.opp (parse_digits r 0 false)
    | "+"%char :: r => parse_digits r 0 false
    | _ => parse_digits body 0 false
    end.

(** [o, e = tok.split('=', 1)] when [tok] holds an equals sign. *)
Fixpoint split_eq (tok : string) : option (string * string) :=
  match tok with
  | EmptyString => None
  | String c rest =>
      if (c =? "=")%char then Some (EmptyString, rest)
      else match split_eq rest with
           | Some (o, e) => Some (String c o, e)
           | None => None
           end
  end.

Fixpoint contains_space (tok : string) : bool :=
  match tok with
  | EmptyString => false
  | String c rest => (c =? " ")%char || contains_space rest
  end.

(** Digits, then optionally a point and digits: the tail of a number.
    [n] counts the digits read since the start or the point. *)
Fixpoint number_tail (s : string) (n : nat) (pointed : bool) : bool :=
  match s with
  | EmptyString => (0 <? n)%nat
  | String c rest =>
      if PyFloat.is_digit c then number_tail rest (S n) pointed
      else if (c =? ".")%char && negb pointed then number_tail rest 0 true
      else false
  end.

(** The pattern [^-\d+$|^-\d*\.\d+$] of tokens read as negative numbers. *)
Definition negative_number_like (tok : string) : bool :=
  match tok with
  | String "-"%char rest => number_tail rest 0 false
  | _ => false
  end.

End PyStr.

(** ** Exceptions and values *)

Inductive exn : Type :=
| KeyError (key : string)
| ZeroDivisionError
| ValueError
| ArgumentTypeError (msg : string)
| SystemExit (code : Z).

Inductive pyval : Type :=
| PyNone
| PyFloat (x : Q).

(** [a / b] on two [int]s: the exact quotient, rounded once. *)
Definition int_truediv (a b : Z) : exn + Q :=
  if b =? 0 then inl ZeroDivisionError
  else inr (PyFloat.round64 (inject_Z a / inject_Z b)).

(** [a / n] for a float [a] and an [int] [n]. *)
Definition float_truediv (a : Q) (n : Z) : exn + Q :=
  if n =? 0 then inl ZeroDivisionError
  else inr (PyFloat.round64 (a / PyFloat.of_int n)).

(** ** The sampling loop *)

Section Sampling.

Variable G : Type.
Variable uniform : G -> Q * G.

(** Consecutive draws paired up as points. *)
Fixpoint pair_up (xs : list Q) : list (Q * Q) :=
  match xs with
  | x :: y :: rest => (x, y) :: pair_up rest
  | _ => []
  end.

(** The test of line 43 on one point. *)
Definition inside (p : Q * Q) : bool :=
  let radius_squared := PyFloat.add (PyFloat.sqr (fst p)) (PyFloat.sqr (snd p)) in
  PyFloat.leb radius_squared 1.

(** Lines 38 to 44: [k] iterations from generator state [g], the counter
    starting at [within_circle]. *)
Fixpoint sample_loop (k : nat) (g : G) (within_circle : Z) : Z * G :=
  match k with
  | O => (within_circle, g)
  | S k' =>
      let (x, g1) := uniform g in
      let (y, g2) := uniform g1 in
      let radius_squared := PyFloat.add (PyFloat.sqr x) (PyFloat.sqr y) in
      sample_loop k' g2
        (if PyFloat.leb radius_squared 1 then within_circle + 1
         else within_circle)
  end.

(** The points the loop draws, in order, and the generator it leaves. *)
Fixpoint sample_points (k : nat) (g : G) : list (Q * Q) :=
  match k with
  | O => []
  | S k' =>
      let (x, g1) := uniform g in
      let (y, g2) := uniform g1 in
      (x, y) :: sample_points k' g2
  end.

(** The first [k] values the generator yields from state [g]. *)
Fixpoint draws (k : nat) (g : G) : list Q :=
  match k with
  | O => []
  | S k' => let (x, g1) := uniform g in x :: draws k' g1
  end.

Fixpoint advance (k : nat) (g : G) : G :=
  match k with
  | O => g
  | S k' => advance k' (snd (uniform g))
  end.

(** Counter and estimate of one estimation of [n_points] samples. *)
Definition within_circle (n_points : Z) (g : G) : Z :=
  fst (sample_loop (Z.to_nat n_points) g 0).

Definition pi_estimate (n_points : Z) (g : G) : Q :=
  PyFloat.round64
    (inject_Z (4 * within_circle n_points g) / inject_Z n_points).

End Sampling.

Arguments inside p : simpl never.

(** ** The runtime the script runs in *)

(** What the script takes from its environment.  [estimate_pi] of the
    [estimate_pi_cython] extension module is code of the repository that is
    compiled from a separate file; it enters as a parameter that, like the
    numba estimator, may advance the generator and print lines. *)
Record Runtime : Type := {
  G : Type;                         (* state of the random generator *)
  uniform : G -> Q * G;             (* random.uniform(-1, 1) *)
  seed : Z -> G;                    (* state after random.seed(s) *)
  clock : nat -> Q;                 (* what the k-th time.time() returns *)
  float_repr : Q -> string;         (* the text print shows for a float *)
  estimate_pi_cython : Z -> bool -> G -> exn + (list string * G)
}.

(** ** Command line arguments *)

(** The attributes [parse_args] returns. *)
Record Namespace : Type := {
  n_points : Z;
  jit : string;
  n_repeats : Z;
  only_time : bool
}.

Definition set_n_points (v : Z) (ns : Namespace) : Namespace :=
  {| n_points := v; jit := jit ns; n_repeats := n_repeats ns;
     only_time := only_time ns |}.
Definition set_jit (v : string) (ns : Namespace) : Namespace :=
  {| n_points := n_points ns; jit := v; n_repeats := n_repeats ns;
     only_time := only_time ns |}.
Definition set_n_repeats (v : Z) (ns : Namespace) : Namespace :=
  {| n_points := n_points ns; jit := jit ns; n_repeats := v;
     only_time := only_time ns |}.
Definition set_only_time (v : bool) (ns : Namespace) : Namespace :=
  {| n_points := n_points ns; jit := jit ns; n_repeats := n_repeats ns;
     only_time := v |}.

(** Lines 93 to 100. *)
Definition positive_integer (value : string) : exn + Z :=
  match PyStr.py_int value with
  | None => inl ValueError
  | Some int_value =>
      if int_value <=? 0
      then inl (ArgumentTypeError
                  (value ++ " is an invalid positive int value")%string)
      else inr int_value
  end.

(** An argument as [add_argument] declares it. *)
Inductive Argument : Type :=
| StoreInt (option_strings : list string) (type_ : string -> exn + Z)
    (dest : Z -> Namespace -> Namespace)
| StoreChoice (option_strings : list string) (choices : list string)
    (dest : string -> Namespace -> Namespace)
| StoreTrue (option_strings : list string)
    (dest : bool -> Namespace -> Namespace).

Definition option_strings_of (a : Argument) : list string :=
  match a with
  | StoreInt o _ _ | StoreChoice o _ _ | StoreTrue o _ => o
  end.

(** The two backends [--jit] names (line 117). *)
Definition jit_choices : list string := ["numba"; "cython"]%string.

(** Lines 105 to 132: the parser of [main] and the defaults it starts from. *)
Definition parser : list Argument :=
  [ StoreInt ["-p"; "--n_points"]%string positive_integer set_n_points;
    StoreChoice ["--jit"]%string jit_choices set_jit;
    StoreInt ["-r"; "--n_repeats"]%string positive_integer set_n_repeats;
    StoreTrue ["--only-time"]%string set_only_time ].

Definition defaults : Namespace :=
  {| n_points := 10000000; jit := "cython"; n_repeats := 10;
     only_time := false |}.

(** A model of [argparse] for the option strings a parser declares, written
    in full or as [option=value].  Abbreviated options, a value glued to a
    short option, the [--] separator and the help option that [argparse]
    adds by itself are not interpreted: such a token is an unrecognized
    argument here. *)
Module Argparse.

Definition has_option (tok : string) (a : Argument) : bool :=
  existsb (String.eqb tok) (option_strings_of a).

Definition find_action (p : list Argument) (tok : string) : option Argument :=
  find (has_option tok) p.

Inductive arg_class : Type :=
| Positional
| Optional (action : option Argument) (explicit_arg : option string).

(** What a token that is no declared option string is taken for. *)
Definition classify_other (tok : string) : arg_class :=
  if PyStr.negative_number_like tok then Positional
  else if PyStr.contains_space tok then Positional
  else Optional None None.

Definition classify (p : list Argument) (tok : string) : arg_class :=
  match tok with
  | EmptyString => Positional
  | String c _ =>
      if negb (c =? "-")%char then Positional
      else
        match find_action p tok with
        | Some a => Optional (Some a) None
        | None =>
            if (tok =? "-")%string then Positional
            else
              match PyStr.split_eq tok with
              | Some (o, e) =>
                  match find_action p o with
                  | Some a => Optional (Some a) (Some e)
                  | None => classify_other tok
                  end
              | None => classify_other tok
              end
        end
  end.

(** Arguments that consume the token after their option string. *)
Definition takes_value (a : Argument) : bool :=
  match a with
  | StoreInt _ _ _ | StoreChoice _ _ _ => true
  | StoreTrue _ _ => false
  end.

(** A token that gives one of the option strings [opts], alone or as
    [option=value]. *)
Definition names_option (opts : list string) (tok : string) : bool :=
  existsb (String.eqb tok) opts ||
  match PyStr.split_eq tok with
  | Some (o, _) => existsb (String.eqb o) opts
  | None => false
  end.

(** An [ArgumentError]: its message. *)
Definition ArgumentError : Type := string.

(** Converting and storing the one value of an option. *)
Definition store_value (a : Argument) (v : string) (ns : Namespace)
  : ArgumentError + Namespace :=
  match a with
  | StoreInt _ type_ dest =>
      match type_ v with
      | inr z => inr (dest z ns)
      | inl (ArgumentTypeError msg) => inl msg
      | inl _ => inl ("invalid positive_integer value: '" ++ v ++ "'")%string
      end
  | StoreChoice _ choices dest =>
      if existsb (String.eqb v) choices then inr (dest v ns)
      else inl ("invalid choice: '" ++ v ++ "'")%string
  | StoreTrue _ dest => inr (dest true ns)
  end.

(** The left to right pass over the tokens.  Tokens that belong to no
    declared option are collected in [extras]. *)
Fixpoint consume (p : list Argument) (toks : list string) (ns : Namespace)
    (extras : list string) : ArgumentError + (Namespace * list string) :=
  match toks with
  | [] => inr (ns, extras)
  | tok :: rest =>
      match classify p tok with
      | Positional | Optional None _ => consume p rest ns (extras ++ [tok])
      | Optional (Some (StoreTrue _ dest)) None =>
          consume p rest (dest true ns) extras
      | Optional (Some (StoreTrue _ _)) (Some e) =>
          inl ("ignored explicit argument '" ++ e ++ "'")%string
      | Optional (Some a) (Some e) =>
          match store_value a e ns with
          | inl err => inl err
          | inr ns' => consume p rest ns' extras
          end
      | Optional (Some a) None =>
          match rest with
          | v :: rest' =>
              match classify p v with
              | Positional =>
                  match store_value a v ns with
                  | inl err => inl err
                  | inr ns' => consume p rest' ns' extras
                  end
              | Optional _ _ => inl "expected one argument"%string
              end
          | [] => inl "expected one argument"%string
          end
      end
  end.

(** [parser.parse_args(arguments)]: every error ends the process with
    status 2. *)
Definition parse_args (p : list Argument) (dflt : Namespace)
    (arguments : list string) : exn + Namespace :=
  match consume p arguments dflt [] with
  | inl _ => inl (SystemExit 2)
  | inr (ns, []) => inr ns
  | inr (_, _ :: _) => inl (SystemExit 2)
  end.

End Argparse.

(** What the data model asks of the attributes. *)
Definition valid_namespace (ns : Namespace) : Prop :=
  0 < n_points ns /\ 0 < n_repeats ns /\ In (jit ns) jit_choices.

(** The option strings of the two counts. *)
Definition count_options : list string :=
  ["-p"; "--n_points"; "-r"; "--n_repeats"]%string.

(** ** Worlds and effects *)

(** What a run leaves behind, in order: the lines it prints and, as ghost
    entries, the estimator calls the harness makes. *)
Inductive event : Type :=
| Call (fn : string) (n_points : Z) (show_estimate : bool)
| Print (line : string).

Definition is_call (e : event) : bool :=
  match e with Call _ _ _ => true | Print _ => false end.

(** The lines among the events: standard output. *)
Fixpoint printed (t : list event) : list string :=
  match t with
  | [] => []
  | Print line :: t' => line :: printed t'
  | Call _ _ _ :: t' => printed t'
  end.

Definition estimate_prefix : string := "Final Estimation of Pi=".

(** Lines that show an estimate. *)
Definition is_estimate_line (line : string) : bool :=
  String.prefix estimate_prefix line.

(** The state a run threads through. *)
Record World (rt : Runtime) : Type := {
  rng : G rt;              (* state of the random generator *)
  clock_reads : nat;       (* readings of the clock taken so far *)
  trace : list event       (* events so far, oldest first *)
}.
Arguments Build_World {rt} rng clock_reads trace.
Arguments rng {rt} w.
Arguments clock_reads {rt} w.
Arguments trace {rt} w.

(** A small runtime to execute the model on: a linear congruential
    generator, a clock that advances a third of a second per reading, and a
    compiled estimator that runs the same loop. *)
Module Demo.

Definition lcg_uniform (s : Z) : Q * Z :=
  let s' := (1103515245 * s + 12345) mod 2 ^ 31 in
  (PyFloat.round64 (-1 + 2 * (inject_Z s' / inject_Z (2 ^ 31))), s').

Definition lcg_seed (s : Z) : Z := s mod 2 ^ 31.

Definition third_clock (k : nat) : Q :=
  PyFloat.round64 (inject_Z (Z.of_nat k) / 3).

Definition compiled_loop (n_points : Z) (show_estimate : bool) (g : Z)
  : exn + (list string * Z) :=
  let (count, g') := sample_loop Z lcg_uniform (Z.to_nat n_points) g 0 in
  match int_truediv (4 * count) n_points with
  | inl e => inl e
  | inr est =>
      inr (if show_estimate then []
           else [("Final Estimation of Pi= " ++ PyFloat.repr est)%string],
           g')
  end.

Definition runtime : Runtime := {|
  G := Z;
  uniform := lcg_uniform;
  seed := lcg_seed;
  clock := third_clock;
  float_repr := PyFloat.repr;
  estimate_pi_cython := compiled_loop
|}.

(** The world a demonstration run starts in. *)
Definition start : World runtime :=
  {| rng := (1 : G runtime); clock_reads := 0; trace := [] |}.

End Demo.

Section Program.

Variable rt : Runtime.

Definition stdout (w : World rt) : list string := printed (trace w).

Inductive outcome (A : Type) : Type :=
| Returned (a : A) (w : World rt)
| Raised (e : exn) (w : World rt).
Arguments Returned {A} a w.
Arguments Raised {A} e w.

Definition M (A : Type) : Type := World rt -> outcome A.

Definition ret {A} (a : A) : M A := fun w => Returned a w.

Definition raise {A} (e : exn) : M A := fun w => Raised e w.

Definition bind {A B} (c : M A) (k : A -> M B) : M B :=
  fun w =>
    match c w with
    | Returned a w' => k a w'
    | Raised e w' => Raised e w'
    end.

Notation "x <- c ;; k" := (bind c (fun x => k))
  (at level 61, c at next level, right associativity).
Notation "c ;;; k" := (bind c (fun _ => k))
  (at level 61, right associativity).

Definition lift {A} (r : exn + A) : M A :=
  match r with inl e => raise e | inr a => ret a end.

Definition emit (e : event) : M unit :=
  fun w =>
    Returned tt {| rng := rng w; clock_reads := clock_reads w;
                   trace := trace w ++ [e] |}.

(** [print(line)]. *)
Definition py_print (line : string) : M unit := emit (Print line).

(** [time.time()]. *)
Definition time_time : M Q :=
  fun w =>
    Returned (clock rt (clock_reads w))
      {| rng := rng w; clock_reads := S (clock_reads w); trace := trace w |}.

(** [random.seed(s)]. *)
Definition random_seed (s : Z) : M unit :=
  fun w =>
    Returned tt {| rng := seed rt s; clock_reads := clock_reads w;
                   trace := trace w |}.

(** [for _ in range(k): body]. *)
Fixpoint for_range (k : nat) (body : M unit) : M unit :=
  match k with
  | O => ret tt
  | S k' => body ;;; for_range k' body
  end.

(** ** The estimator (lines 20 to 49) *)

(** Lines 36 to 44 on the generator of the world. *)
Definition count_within_circle (n_points : Z) : M Z :=
  fun w =>
    let (within_circle, g) :=
      sample_loop (G rt) (uniform rt) (Z.to_nat n_points) (rng w) 0 in
    Returned within_circle
      {| rng := g; clock_reads := clock_reads w; trace := trace w |}.

(** The line the estimator prints for an estimate. *)
Definition estimate_line (pi_estimate : Q) : string :=
  (estimate_prefix ++ " " ++ float_repr rt pi_estimate)%string.

Definition estimate_pi_numba (n_points : Z) (show_estimate : bool) : M pyval :=
  within_circle <- count_within_circle n_points ;;
  pi_estimate <- lift (int_truediv (4 * within_circle) n_points) ;;
  (if negb show_estimate then py_print (estimate_line pi_estimate)
   else ret tt) ;;;
  ret PyNone.

(** The compiled estimator as a function on worlds. *)
Definition estimate_pi_cython_estimate_pi (n_points : Z) (show_estimate : bool)
  : M pyval :=
  fun w =>
    match estimate_pi_cython rt n_points show_estimate (rng w) with
    | inl e => Raised e w
    | inr (out, g) =>
        Returned PyNone
          {| rng := g; clock_reads := clock_reads w;
             trace := trace w ++ map Print out |}
    end.

(** ** The harness (lines 52 to 90) *)

Definition estimator : Type := Z -> bool -> M pyval.

(** Lines 74 to 77. *)
Definition fcns : list (string * estimator) :=
  [ ("numba"%string, estimate_pi_numba);
    ("cython"%string, estimate_pi_cython_estimate_pi) ].

(** [d[key]] on a dictionary. *)
Fixpoint getitem {V} (d : list (string * V)) (key : string) : exn + V :=
  match d with
  | [] => inl (KeyError key)
  | (k, v) :: d' => if (k =? key)%string then inr v else getitem d' key
  end.

(** Line 82: the lookup, then the call, which the trace records. *)
Definition call_estimator (jit : string) (n_points : Z) (only_time : bool)
  : M unit :=
  f <- lift (getitem fcns jit) ;;
  emit (Call jit n_points only_time) ;;;
  f n_points only_time ;;;
  ret tt.

(** The per-run average of lines 85 and 89. *)
Definition seconds_per_run (start_time : Q) (n_repeats : Z) : M Q :=
  now <- time_time ;;
  lift (float_truediv (PyFloat.sub now start_time) n_repeats).

Definition sample_count_line (n_points : Z) : string :=
  ("Test run was done with " ++ PyFloat.format_2e (PyFloat.of_int n_points))%string.

Definition timing_sentence (avg : Q) : string :=
  ("Estimating pi took " ++ PyFloat.format_4f avg ++ " seconds per run.")%string.

Definition run_test (n_points n_repeats : Z) (only_time : bool) (jit : string)
  : M pyval :=
  start_time <- time_time ;;
  for_range (Z.to_nat n_repeats) (call_estimator jit n_points only_time) ;;;
  (if only_time then
     avg <- seconds_per_run start_time n_repeats ;;
     py_print (PyFloat.format_4f avg)
   else
     py_print (sample_count_line n_points) ;;;
     avg <- seconds_per_run start_time n_repeats ;;
     py_print (timing_sentence avg)) ;;;
  ret PyNone.

(** ** The front end (lines 103 to 140) *)

Definition main (arguments : list string) : M pyval :=
  args <- lift (Argparse.parse_args parser defaults arguments) ;;
  run_test (n_points args) (n_repeats args) (only_time args) (jit args).

(** Exit status of the process for the outcome of [main]. *)
Definition exit_status {A} (o : outcome A) : Z :=
  match o with
  | Returned _ _ => 0
  | Raised (SystemExit code) _ => code
  | Raised _ _ => 1
  end.

Definition world_of {A} (o : outcome A) : World rt :=
  match o with Returned _ w | Raised _ w => w end.

(** What a call returns, if it returns, and what it raises, if it raises. *)
Definition value_of {A} (o : outcome A) : option A :=
  match o with Returned a _ => Some a | Raised _ _ => None end.

Definition raised_of {A} (o : outcome A) : option exn :=
  match o with Returned _ _ => None | Raised e _ => Some e end.

(** ** Vocabulary of the statements *)

(** Generator state one estimation of [n_points] samples leaves. *)
Definition rng_after (n_points : Z) (g : G rt) : G rt :=
  snd (sample_loop (G rt) (uniform rt) (Z.to_nat n_points) g 0).

(** Number of the drawn points that fall in the circle. *)
Definition points_inside (n_points : Z) (g : G rt) : Z :=
  Z.of_nat
    (List.length
       (filter inside (sample_points (G rt) (uniform rt) (Z.to_nat n_points) g))).

(** The estimate lines of [k] successive estimations from state [g]. *)
Fixpoint estimate_lines (k : nat) (n_points : Z) (g : G rt) : list string :=
  match k with
  | O => []
  | S k' =>
      estimate_line (pi_estimate (G rt) (uniform rt) n_points g)
      :: estimate_lines k' n_points (rng_after n_points g)
  end.

(** The events of [k] iterations of line 82 with the numba estimator. *)
Fixpoint numba_events (k : nat) (n_points : Z) (show_estimate : bool)
    (g : G rt) : list event :=
  match k with
  | O => []
  | S k' =>
      Call "numba" n_points show_estimate
      :: (if show_estimate then []
          else [Print (estimate_line (pi_estimate (G rt) (uniform rt) n_points g))])
      ++ numba_events k' n_points show_estimate (rng_after n_points g)
  end.

(** The events of iterations that print [outs], one list per call. *)
Definition loop_events (jit : string) (n_points : Z) (show_estimate : bool)
    (outs : list (list string)) : list event :=
  List.concat (map (fun out => Call jit n_points show_estimate :: map Print out) outs).

(** The value lines 85 and 89 format, for a run started in world [w]. *)
Definition average_seconds (w : World rt) (n_repeats : Z) : Q :=
  PyFloat.round64
    (PyFloat.sub (clock rt (S (clock_reads w))) (clock rt (clock_reads w))
     / PyFloat.of_int n_repeats).

(** The lines the harness prints after the loop (lines 84 to 90). *)
Definition timing_lines (w : World rt) (n_points n_repeats : Z) (only_time : bool)
  : list string :=
  if only_time then [PyFloat.format_4f (average_seconds w n_repeats)]
  else [sample_count_line n_points;
        timing_sentence (average_seconds w n_repeats)].

(** Generator state after [k] successive estimations. *)
Fixpoint rng_after_runs (k : nat) (n_points : Z) (g : G rt) : G rt :=
  match k with
  | O => g
  | S k' => rng_after_runs k' n_points (rng_after n_points g)
  end.

(** An estimator that, called with these arguments, returns [None], leaves
    the clock alone and prints lines that satisfy [P]. *)
Definition runs_with (f : estimator) (n_points : Z) (show_estimate : bool)
    (P : list string -> Prop) : Prop :=
  forall w, exists out g',
    f n_points show_estimate w =
    Returned PyNone
      {| rng := g'; clock_reads := clock_reads w;
         trace := trace w ++ map Print out |} /\ P out.

(** The lines a run adds to the output of the world it started in. *)
Definition new_output {A} (w : World rt) (o : outcome A) : list string :=
  skipn (List.length (stdout w)) (stdout (world_of o)).

(** The compiled estimator returns normally. *)
Definition cython_returns (n_points : Z) (show_estimate : bool) : Prop :=
  forall g, exists out g',
    estimate_pi_cython rt n_points show_estimate g = inr (out, g').

(** The compiled estimator prints nothing when asked not to. *)
Definition cython_silent (n_points : Z) : Prop :=
  forall g out g',
    estimate_pi_cython rt n_points true g = inr (out, g') -> out = [].

(** * Properties *)

(** ** Rounding *)

Lemma round_half_even_floor (q : Q) :
  Qfloor q <= PyFloat.round_half_even q <= Qfloor q + 1.
Proof.
  unfold PyFloat.round_half_even.
  destruct (Qcompare _ _); [destruct (Z.even _)| |]; lia.
Qed.

Lemma round_half_even_lower (q : Q) (k : Z) :
  (inject_Z k <= q)%Q -> k <= PyFloat.round_half_even q.
Proof.
  intros H. apply Qfloor_resp_le in H. rewrite Qfloor_Z in H.
  pose proof (round_half_even_floor q). lia.
Qed.

Lemma round_half_even_upper (q : Q) (k : Z) :
  (q <= inject_Z k)%Q -> PyFloat.round_half_even q <= k.
Proof.
  intros H. pose proof (Qfloor_resp_le _ _ H) as Hf. rewrite Qfloor_Z in Hf.
  unfold PyFloat.round_half_even.
  assert (Hup : (inject_Z (Qfloor q) < q)%Q -> Qfloor q + 1 <= k).
  { intros Hlt. assert (Hk : (inject_Z (Qfloor q) < inject_Z k)%Q)
      by (eapply Qlt_le_trans; eassumption).
    rewrite <- Zlt_Qlt in Hk. lia. }
  destruct (Qcompare (q - inject_Z (Qfloor q)) (1 # 2)) eqn:Hc.
  - destruct (Z.even (Qfloor q)); [lia|].
    apply Hup, Qlt_minus_iff. apply Qeq_alt in Hc.
    fold (Qminus q (inject_Z (Qfloor q))). rewrite Hc. reflexivity.
  - lia.
  - apply Hup, Qlt_minus_iff. apply Qgt_alt in Hc.
    eapply Qlt_trans; [|exact Hc]. reflexivity.
Qed.

Lemma pow2_pos (e : Z) : (0 < PyFloat.pow2 e)%Q.
Proof. apply Qpower_0_lt. reflexivity. Qed.

Lemma round64_nonneg (q : Q) : (0 <= q)%Q -> (0 <= PyFloat.round64 q)%Q.
Proof.
  intros Hq. unfold PyFloat.round64.
  destruct (Qnum q) eqn:Hn; [apply Qle_refl| |].
  - rewrite Qred_correct. simpl.
    apply Qmult_le_0_compat; [|apply Qlt_le_weak, pow2_pos].
    change 0%Q with (inject_Z 0). rewrite <- Zle_Qle.
    apply round_half_even_lower. simpl.
    apply Qle_shift_div_l; [apply pow2_pos|].
    rewrite Qmult_0_l. apply Qabs_nonneg.
  - exfalso. destruct q as [a b]. simpl in Hn. subst a.
    unfold Qle in Hq. simpl in Hq. lia.
Qed.

Lemma pow2_quotient (e : Z) :
  e <= 54 -> (inject_Z (2 ^ (54 - e)) == 4 / PyFloat.pow2 (e - 52))%Q.
Proof.
  intros He. unfold PyFloat.pow2.
  rewrite Zpower_Qpower by lia.
  replace (54 - e) with (2 - (e - 52)) by lia.
  rewrite Qpower_minus by discriminate. reflexivity.
Qed.

Lemma binade_le_2 (p d : positive) :
  (Zpos p # d <= 4)%Q -> PyFloat.binade (Zpos p # d) <= 2.
Proof.
  intros H. unfold Qle in H. simpl in H.
  assert (Hlog : Z.log2 (Zpos p) <= 2 + Z.log2 (Zpos d)).
  { rewrite <- (Z.log2_mul_pow2 (Zpos d) 2) by lia.
    apply Z.log2_le_mono. lia. }
  unfold PyFloat.binade. simpl Qnum. simpl Qden.
  destruct (Qle_bool _ _); lia.
Qed.

Lemma round64_le_4 (q : Q) : (0 <= q)%Q -> (q <= 4)%Q -> (PyFloat.round64 q <= 4)%Q.
Proof.
  intros H0 H4. unfold PyFloat.round64.
  destruct q as [n d]. simpl Qnum.
  destruct n as [|p|p]; [discriminate| |exfalso; unfold Qle in H0; simpl in H0; lia].
  change (Qabs (Zpos p # d)) with (Zpos p # d).
  change (Zpos p <? 0) with false. cbv iota.
  pose proof (binade_le_2 p d H4) as Hb.
  set (e := Z.max (PyFloat.binade (Zpos p # d)) (-1022)).
  assert (He : e <= 54) by (unfold e; lia).
  pose proof (pow2_pos (e - 52)) as Hulp.
  rewrite Qred_correct.
  assert (Hm : PyFloat.round_half_even ((Zpos p # d) / PyFloat.pow2 (e - 52))
               <= 2 ^ (54 - e)).
  { apply round_half_even_upper. rewrite (pow2_quotient e He).
    apply Qmult_le_compat_r; [exact H4|].
    apply Qlt_le_weak, Qinv_lt_0_compat, Hulp. }
  rewrite Zle_Qle in Hm. rewrite (pow2_quotient e He) in Hm.
  apply Qle_trans with (4 / PyFloat.pow2 (e - 52) * PyFloat.pow2 (e - 52))%Q.
  - apply Qmult_le_compat_r; [exact Hm|apply Qlt_le_weak, Hulp].
  - apply Qle_lteq. right. field.
    intros Hz. rewrite Hz in Hulp. discriminate.
Qed.

(** ** Decimal text *)

Lemma is_digit_digit_char (d : Z) :
  0 <= d < 10 -> PyFloat.is_digit (PyFloat.digit_char d) = true.
Proof.
  intros H. unfold PyFloat.is_digit, PyFloat.digit_char.
  rewrite nat_ascii_embedding by lia.
  apply andb_true_intro; split; apply Nat.leb_le; lia.
Qed.

Lemma is_digit_mod10 (n : Z) :
  PyFloat.is_digit (PyFloat.digit_char (n mod 10)) = true.
Proof. apply is_digit_digit_char, Z.mod_pos_bound. lia. Qed.

Lemma all_digits_app (s t : string) :
  PyFloat.all_digits (s ++ t) =
  PyFloat.all_digits s && PyFloat.all_digits t.
Proof.
  induction s as [|c s IH]; simpl; [reflexivity|].
  rewrite IH. apply andb_assoc.
Qed.

Lemma string_app_nil_r (s : string) : (s ++ "")%string = s.
Proof. induction s as [|c s IH]; cbn [append]; [|rewrite IH]; reflexivity. Qed.

Lemma string_app_assoc (s t u : string) :
  ((s ++ t) ++ u)%string = (s ++ t ++ u)%string.
Proof. induction s as [|c s IH]; cbn [append]; [|rewrite IH]; reflexivity. Qed.

Lemma decimal_digits_spec (fuel : nat) :
  forall n acc, exists ds,
    PyFloat.decimal_digits (S fuel) n acc = (ds ++ acc)%string /\
    PyFloat.all_digits ds = true /\ ds <> EmptyString.
Proof.
  induction fuel as [|fuel IH]; intros n acc.
  - exists (String (PyFloat.digit_char (n mod 10)) EmptyString).
    cbn [PyFloat.decimal_digits PyFloat.all_digits append].
    rewrite is_digit_mod10. repeat split; try discriminate.
    destruct (n / 10 =? 0); reflexivity.
  - change (PyFloat.decimal_digits (S (S fuel)) n acc)
      with (let acc' := String (PyFloat.digit_char (n mod 10)) acc in
            if n / 10 =? 0 then acc'
            else PyFloat.decimal_digits (S fuel) (n / 10) acc').
    cbv zeta. destruct (n / 10 =? 0).
    + exists (String (PyFloat.digit_char (n mod 10)) EmptyString).
      cbn [PyFloat.all_digits append].
      rewrite is_digit_mod10. repeat split; discriminate.
    + destruct (IH (n / 10) (String (PyFloat.digit_char (n mod 10)) acc))
        as (ds & Heq & Hall & Hne).
      exists (ds ++ String (PyFloat.digit_char (n mod 10)) EmptyString)%string.
      rewrite Heq, string_app_assoc.
      cbn [append].
      rewrite all_digits_app, Hall.
      cbn [PyFloat.all_digits]. rewrite is_digit_mod10.
      repeat split. destruct ds; [contradiction|discriminate].
Qed.

Lemma str_nat_digits (n : Z) :
  PyFloat.all_digits (PyFloat.str_nat n) = true /\
  PyFloat.str_nat n <> EmptyString.
Proof.
  unfold PyFloat.str_nat.
  destruct (decimal_digits_spec (Z.to_nat (Z.log2 n)) n EmptyString)
    as (ds & Heq & Hall & Hne).
  rewrite Heq, string_app_nil_r. split; assumption.
Qed.

Lemma four_digits_shape (n : Z) :
  String.length (PyFloat.four_digits n) = 4%nat /\
  PyFloat.all_digits (PyFloat.four_digits n) = true.
Proof.
  split; [reflexivity|]. unfold PyFloat.four_digits.
  cbn [PyFloat.all_digits]. rewrite !is_digit_mod10. reflexivity.
Qed.

Lemma digit_not_point (c : ascii) :
  PyFloat.is_digit c = true -> c <> "."%char /\ c <> "-"%char.
Proof.
  intros H. split; intros ->; discriminate.
Qed.

Lemma int_point_frac4_step (c : ascii) (s : string) (seen : bool) :
  PyFloat.is_digit c = true ->
  PyFloat.int_point_frac4 (String c s) seen = PyFloat.int_point_frac4 s true.
Proof.
  intros H.
  destruct c as [[] [] [] [] [] [] [] []]; try discriminate H; reflexivity.
Qed.

Lemma int_point_frac4_digits (ds fs : string) :
  forall seen,
    PyFloat.all_digits ds = true ->
    (seen = true \/ ds <> EmptyString) ->
    String.length fs = 4%nat -> PyFloat.all_digits fs = true ->
    PyFloat.int_point_frac4 (ds ++ "." ++ fs) seen = true.
Proof.
  induction ds as [|c ds IH]; intros seen Hall Hseen Hlen Hfs.
  - destruct Hseen as [->|Hne]; [|contradiction]. simpl.
    rewrite Hlen, Hfs. reflexivity.
  - simpl in Hall. apply andb_prop in Hall. destruct Hall as [Hc Hds].
    change (String c ds ++ "." ++ fs)%string
      with (String c (ds ++ "." ++ fs))%string.
    rewrite (int_point_frac4_step c _ seen Hc).
    apply IH; auto.
Qed.

Lemma is_fixed4_unsigned (ds fs : string) :
  PyFloat.all_digits ds = true -> ds <> EmptyString ->
  String.length fs = 4%nat -> PyFloat.all_digits fs = true ->
  PyFloat.is_fixed4 (ds ++ "." ++ fs) = true /\
  PyFloat.is_fixed4 ("-" ++ ds ++ "." ++ fs) = true.
Proof.
  intros Hall Hne Hlen Hfs.
  pose proof (int_point_frac4_digits ds fs false Hall (or_intror Hne) Hlen Hfs)
    as H.
  split; [|exact H].
  destruct ds as [|c ds]; [contradiction|].
  simpl in Hall. apply andb_prop in Hall. destruct Hall as [Hc _].
  unfold PyFloat.is_fixed4.
  change (String c ds ++ "." ++ fs)%string
    with (String c (ds ++ "." ++ fs))%string in *.
  destruct c as [[] [] [] [] [] [] [] []]; try discriminate Hc; exact H.
Qed.

(** The [.4f] text of any value is an optional sign, at least one digit, a
    point and exactly four digits. *)
Lemma format_4f_fixed4 (q : Q) : PyFloat.is_fixed4 (PyFloat.format_4f q) = true.
Proof.
  unfold PyFloat.format_4f.
  set (m := PyFloat.round_half_even _).
  destruct (str_nat_digits (m / 10000)) as [Hall Hne].
  destruct (four_digits_shape m) as [Hlen Hfs].
  destruct (is_fixed4_unsigned _ _ Hall Hne Hlen Hfs) as [Hpos Hneg].
  unfold PyFloat.sign_text. destruct (Qnum q <? 0); assumption.
Qed.

(** ** The sampling loop *)

Section SamplingFacts.

Variable S0 : Type.
Variable draw : S0 -> Q * S0.

Lemma sample_loop_count (k : nat) :
  forall g c,
    fst (sample_loop S0 draw k g c) =
    c + Z.of_nat (List.length (filter inside (sample_points S0 draw k g))).
Proof.
  induction k as [|k IH]; intros g c; cbn [sample_loop sample_points].
  - cbn. lia.
  - destruct (draw g) as [x g1]. destruct (draw g1) as [y g2].
    rewrite IH. cbn [filter].
    change (inside (x, y))
      with (PyFloat.leb (PyFloat.add (PyFloat.sqr x) (PyFloat.sqr y)) 1).
    destruct (PyFloat.leb _ 1); cbn [List.length]; lia.
Qed.

Lemma sample_points_length (k : nat) :
  forall g, List.length (sample_points S0 draw k g) = k.
Proof.
  induction k as [|k IH]; intros g; cbn [sample_points]; [reflexivity|].
  destruct (draw g) as [x g1]. destruct (draw g1) as [y g2].
  cbn [List.length]. now rewrite IH.
Qed.

Lemma sample_loop_bounds (k : nat) (g : S0) (c : Z) :
  c <= fst (sample_loop S0 draw k g c) <= c + Z.of_nat k.
Proof.
  rewrite sample_loop_count.
  pose proof (filter_length_le inside (sample_points S0 draw k g)) as H.
  rewrite sample_points_length in H. lia.
Qed.

Lemma sample_loop_rng (k : nat) :
  forall g c, snd (sample_loop S0 draw k g c) = advance S0 draw (2 * k) g.
Proof.
  induction k as [|k IH]; intros g c; [reflexivity|].
  replace (2 * S k)%nat with (S (S (2 * k))) by lia.
  cbn [sample_loop advance].
  destruct (draw g) as [x g1]. cbn [snd].
  destruct (draw g1) as [y g2]. cbn [snd]. apply IH.
Qed.

Lemma sample_points_draws (k : nat) :
  forall g, sample_points S0 draw k g = pair_up (draws S0 draw (2 * k) g).
Proof.
  induction k as [|k IH]; intros g; [reflexivity|].
  replace (2 * S k)%nat with (S (S (2 * k))) by lia.
  cbn [sample_points draws].
  destruct (draw g) as [x g1]. destruct (draw g1) as [y g2].
  cbn [pair_up]. now rewrite IH.
Qed.

End SamplingFacts.

(** ** The estimator *)

Lemma estimate_pi_numba_run (n_points : Z) (show_estimate : bool) (w : World rt) :
  n_points <> 0 ->
  estimate_pi_numba n_points show_estimate w =
  Returned PyNone
    {| rng := rng_after n_points (rng w);
       clock_reads := clock_reads w;
       trace := trace w ++
                (if show_estimate then []
                 else [Print (estimate_line
                                (pi_estimate (G rt) (uniform rt) n_points (rng w)))]) |}.
Proof.
  intros Hn.
  unfold estimate_pi_numba, bind, count_within_circle, rng_after, pi_estimate,
    within_circle.
  destruct (sample_loop (G rt) (uniform rt) (Z.to_nat n_points) (rng w) 0)
    as [c g].
  unfold int_truediv. apply Z.eqb_neq in Hn. rewrite Hn.
  cbn [lift ret fst snd].
  destruct show_estimate; cbn [negb ret py_print emit rng clock_reads trace].
  - now rewrite app_nil_r.
  - reflexivity.
Qed.

Lemma estimate_pi_numba_zero (show_estimate : bool) (w : World rt) :
  estimate_pi_numba 0 show_estimate w = Raised ZeroDivisionError w.
Proof. destruct w. reflexivity. Qed.

Lemma numba_runs_with (n_points : Z) (show_estimate : bool) :
  n_points <> 0 ->
  runs_with estimate_pi_numba n_points show_estimate
    (fun out => show_estimate = true -> out = []).
Proof.
  intros Hn w. rewrite (estimate_pi_numba_run _ _ _ Hn).
  destruct show_estimate.
  - exists [], (rng_after n_points (rng w)). split; [reflexivity|auto].
  - eexists [_], (rng_after n_points (rng w)).
    split; [reflexivity|discriminate].
Qed.

Lemma cython_runs_with (n_points : Z) (show_estimate : bool) :
  cython_returns n_points show_estimate ->
  runs_with estimate_pi_cython_estimate_pi n_points show_estimate
    (fun out => show_estimate = true -> cython_silent n_points -> out = []).
Proof.
  intros Hret w. destruct (Hret (rng w)) as (out & g' & Hrun).
  exists out, g'. unfold estimate_pi_cython_estimate_pi. rewrite Hrun.
  split; [reflexivity|].
  intros -> Hsilent. exact (Hsilent _ _ _ Hrun).
Qed.

(** ** The loop of the harness *)

Lemma for_range_succ (k : nat) (body : M unit) (w : World rt) :
  for_range (S k) body w =
  match body w with
  | Returned _ w' => for_range k body w'
  | Raised e w' => Raised e w'
  end.
Proof. reflexivity. Qed.

Lemma call_estimator_found (jit : string) (f : estimator) (n_points : Z)
    (only_time : bool) (w : World rt) :
  getitem fcns jit = inr f ->
  call_estimator jit n_points only_time w =
  match f n_points only_time
          {| rng := rng w; clock_reads := clock_reads w;
             trace := trace w ++ [Call jit n_points only_time] |} with
  | Returned _ w' => Returned tt w'
  | Raised e w' => Raised e w'
  end.
Proof.
  intros Hf. unfold call_estimator, bind. rewrite Hf.
  cbn [lift ret emit]. destruct (f _ _ _); reflexivity.
Qed.

Lemma call_estimator_missing (jit : string) (e : exn) (n_points : Z)
    (only_time : bool) (w : World rt) :
  getitem fcns jit = inl e ->
  call_estimator jit n_points only_time w = Raised e w.
Proof.
  intros Hf. unfold call_estimator, bind. rewrite Hf. reflexivity.
Qed.

Lemma for_range_calls (jit : string) (f : estimator) (n_points : Z)
    (only_time : bool) (P : list string -> Prop) (k : nat) :
  getitem fcns jit = inr f ->
  runs_with f n_points only_time P ->
  forall w, exists outs w',
    for_range k (call_estimator jit n_points only_time) w = Returned tt w' /\
    clock_reads w' = clock_reads w /\
    trace w' = trace w ++ loop_events jit n_points only_time outs /\
    List.length outs = k /\ Forall P outs.
Proof.
  intros Hf Hrun. induction k as [|k IH]; intros w.
  - exists [], w. cbn [for_range ret loop_events map List.concat].
    rewrite app_nil_r. repeat split. constructor.
  - rewrite for_range_succ, (call_estimator_found _ _ _ _ _ Hf).
    destruct (Hrun {| rng := rng w; clock_reads := clock_reads w;
                      trace := trace w ++ [Call jit n_points only_time] |})
      as (out & g' & Hcall & HP).
    rewrite Hcall.
    match goal with |- context [for_range k _ ?w1] =>
      destruct (IH w1) as (outs & w' & Hloop & Hclock & Htrace & Hlen & Hall)
    end.
    exists (out :: outs), w'. rewrite Hloop.
    cbn [clock_reads trace] in Hclock, Htrace.
    repeat split.
    + exact Hclock.
    + rewrite Htrace. unfold loop_events. cbn [map List.concat].
      rewrite <- !app_assoc. reflexivity.
    + cbn [List.length]. now rewrite Hlen.
    + constructor; assumption.
Qed.

Lemma loop_events_calls (jit : string) (n_points : Z) (only_time : bool)
    (outs : list (list string)) :
  filter is_call (loop_events jit n_points only_time outs) =
  repeat (Call jit n_points only_time) (List.length outs).
Proof.
  unfold loop_events. induction outs as [|out outs IH]; [reflexivity|].
  cbn [map List.concat List.length repeat].
  rewrite <- app_comm_cons. cbn [filter is_call].
  rewrite filter_app, IH. f_equal.
  assert (Hnone : filter is_call (map Print out) = []).
  { clear. induction out as [|l out IH]; [reflexivity|exact IH]. }
  now rewrite Hnone.
Qed.

Lemma printed_app (t u : list event) :
  printed (t ++ u) = printed t ++ printed u.
Proof.
  induction t as [|[fn n s|line] t IH]; cbn [printed app];
    [reflexivity|exact IH|now rewrite IH].
Qed.

Lemma printed_prints (lines : list string) : printed (map Print lines) = lines.
Proof.
  induction lines as [|l lines IH]; cbn [map printed];
    [reflexivity|now rewrite IH].
Qed.

Lemma filter_call_prints (lines : list string) :
  filter is_call (map Print lines) = [].
Proof. induction lines as [|l lines IH]; [reflexivity|exact IH]. Qed.

Lemma loop_events_printed (jit : string) (n_points : Z) (only_time : bool)
    (outs : list (list string)) :
  printed (loop_events jit n_points only_time outs) = List.concat outs.
Proof.
  unfold loop_events. induction outs as [|out outs IH]; [reflexivity|].
  cbn [map List.concat]. rewrite <- app_comm_cons. cbn [printed].
  now rewrite printed_app, printed_prints, IH.
Qed.

Lemma for_range_numba (n_points : Z) (only_time : bool) (k : nat) :
  n_points <> 0 ->
  forall w,
    for_range k (call_estimator "numba" n_points only_time) w =
    Returned tt
      {| rng := rng_after_runs k n_points (rng w);
         clock_reads := clock_reads w;
         trace := trace w ++ numba_events k n_points only_time (rng w) |}.
Proof.
  intros Hn. induction k as [|k IH]; intros w.
  - cbn [for_range ret rng_after_runs numba_events]. rewrite app_nil_r.
    destruct w; reflexivity.
  - rewrite for_range_succ.
    rewrite (call_estimator_found "numba" estimate_pi_numba) by reflexivity.
    rewrite (estimate_pi_numba_run _ _ _ Hn). rewrite IH.
    cbn [rng clock_reads trace rng_after_runs numba_events].
    rewrite <- !app_assoc. reflexivity.
Qed.

(** ** The harness *)

Lemma run_test_returns (n_points n_repeats : Z) (only_time : bool)
    (jit : string) (w w2 : World rt) :
  n_repeats <> 0 ->
  for_range (Z.to_nat n_repeats) (call_estimator jit n_points only_time)
    {| rng := rng w; clock_reads := S (clock_reads w); trace := trace w |} =
  Returned tt w2 ->
  clock_reads w2 = S (clock_reads w) ->
  run_test n_points n_repeats only_time jit w =
  Returned PyNone
    {| rng := rng w2; clock_reads := S (S (clock_reads w));
       trace := trace w2 ++
                map Print (timing_lines w n_points n_repeats only_time) |}.
Proof.
  intros Hr Hloop Hclock.
  unfold run_test, bind. cbn [time_time]. rewrite Hloop.
  unfold timing_lines, average_seconds, seconds_per_run, float_truediv, bind.
  apply Z.eqb_neq in Hr.
  destruct only_time;
    cbn [time_time py_print emit rng clock_reads trace lift ret];
    rewrite Hr, Hclock;
    cbn [lift ret rng clock_reads trace map py_print emit];
    rewrite <- ?app_assoc; reflexivity.
Qed.

Lemma run_test_raises (n_points n_repeats : Z) (only_time : bool)
    (jit : string) (e : exn) (w w2 : World rt) :
  for_range (Z.to_nat n_repeats) (call_estimator jit n_points only_time)
    {| rng := rng w; clock_reads := S (clock_reads w); trace := trace w |} =
  Raised e w2 ->
  run_test n_points n_repeats only_time jit w = Raised e w2.
Proof.
  intros Hloop. unfold run_test, bind. cbn [time_time]. now rewrite Hloop.
Qed.

Lemma run_test_numba (n_points n_repeats : Z) (only_time : bool) (w : World rt) :
  n_points <> 0 -> n_repeats <> 0 ->
  run_test n_points n_repeats only_time "numba" w =
  Returned PyNone
    {| rng := rng_after_runs (Z.to_nat n_repeats) n_points (rng w);
       clock_reads := S (S (clock_reads w));
       trace := trace w ++
                numba_events (Z.to_nat n_repeats) n_points only_time (rng w) ++
                map Print (timing_lines w n_points n_repeats only_time) |}.
Proof.
  intros Hn Hr.
  rewrite (run_test_returns _ _ _ _ _ _ Hr (for_range_numba _ _ _ Hn _))
    by reflexivity.
  cbn [rng trace]. now rewrite <- app_assoc.
Qed.

(** * The claims *)

Lemma within_circle_points (n_points : Z) (g : G rt) :
  within_circle (G rt) (uniform rt) n_points g = points_inside n_points g.
Proof.
  unfold within_circle, points_inside. rewrite sample_loop_count. lia.
Qed.



Lemma numba_events_printed_shown (k : nat) (n_points : Z) :
  forall g, printed (numba_events k n_points false g) =
            estimate_lines k n_points g.
Proof.
  induction k as [|k IH]; intros g; [reflexivity|].
  cbn [numba_events estimate_lines printed app]. now rewrite IH.
Qed.

Lemma numba_events_printed_silent (k : nat) (n_points : Z) :
  forall g, printed (numba_events k n_points true g) = [].
Proof.
  induction k as [|k IH]; intros g; [reflexivity|].
  cbn [numba_events printed app]. apply IH.
Qed.

Lemma numba_events_calls (k : nat) (n_points : Z) (show_estimate : bool) :
  forall g, filter is_call (numba_events k n_points show_estimate g) =
            repeat (Call "numba" n_points show_estimate) k.
Proof.
  induction k as [|k IH]; intros g; [reflexivity|].
  cbn [numba_events repeat filter is_call]. f_equal.
  destruct show_estimate; cbn [app filter is_call]; apply IH.
Qed.

Lemma estimate_line_recognised (x : Q) :
  is_estimate_line (estimate_line x) = true.
Proof. reflexivity. Qed.

Lemma estimate_lines_shape (k : nat) (n_points : Z) :
  forall g,
    List.length (estimate_lines k n_points g) = k /\
    forallb is_estimate_line (estimate_lines k n_points g) = true.
Proof.
  induction k as [|k IH]; intros g; [split; reflexivity|].
  cbn [estimate_lines List.length forallb].
  destruct (IH (rng_after n_points g)) as [Hlen Hall].
  rewrite Hlen, Hall, estimate_line_recognised. split; reflexivity.
Qed.


Lemma format_4f_head (q : Q) :
  exists c s, PyFloat.format_4f q = String c s /\
              (c = "-"%char \/ PyFloat.is_digit c = true).
Proof.
  unfold PyFloat.format_4f. set (m := PyFloat.round_half_even _).
  destruct (str_nat_digits (m / 10000)) as [Hall Hne].
  destruct (PyFloat.str_nat (m / 10000)) as [|c ds]; [contradiction|].
  cbn [PyFloat.all_digits] in Hall. apply andb_prop in Hall.
  destruct Hall as [Hc _].
  unfold PyFloat.sign_text. destruct (Qnum q <? 0); cbn [append].
  - eexists _, _. split; [reflexivity|now left].
  - eexists _, _. split; [reflexivity|now right].
Qed.

Lemma format_4f_not_estimate (q : Q) :
  is_estimate_line (PyFloat.format_4f q) = false.
Proof.
  destruct (format_4f_head q) as (c & s & -> & [->|Hc]); [reflexivity|].
  unfold is_estimate_line, estimate_prefix. cbn [prefix].
  destruct (ascii_dec "F" c) as [<-|]; [discriminate Hc|reflexivity].
Qed.

Lemma timing_lines_not_estimates (w : World rt) (n_points n_repeats : Z)
    (only_time : bool) :
  filter is_estimate_line (timing_lines w n_points n_repeats only_time) = [].
Proof.
  unfold timing_lines. destruct only_time; cbn [filter].
  - now rewrite format_4f_not_estimate.
  - reflexivity.
Qed.

Lemma filter_all {A} (f : A -> bool) (l : list A) :
  forallb f l = true -> filter f l = l.
Proof.
  induction l as [|a l IH]; cbn [forallb filter]; [reflexivity|].
  intros H. apply andb_prop in H. destruct H as [-> H]. now rewrite IH.
Qed.


Lemma getitem_choice (jit : string) :
  In jit jit_choices ->
  (jit = "numba"%string /\ getitem fcns jit = inr estimate_pi_numba) \/
  (jit = "cython"%string /\
   getitem fcns jit = inr estimate_pi_cython_estimate_pi).
Proof.
  intros [<-|[<-|[]]]; [left|right]; split; reflexivity.
Qed.

Lemma getitem_unknown (jit : string) :
  ~ In jit jit_choices -> getitem fcns jit = inl (KeyError jit).
Proof.
  intros Hno. cbn [getitem fcns].
  destruct (String.eqb_spec "numba" jit) as [<-|_];
    [exfalso; apply Hno; now left|].
  destruct (String.eqb_spec "cython" jit) as [<-|_];
    [exfalso; apply Hno; right; now left|].
  reflexivity.
Qed.

(** The selected backend runs: the numba estimator always does on a non-zero
    sample count, the compiled one when it returns. *)
Lemma selected_runs_with (jit : string) (n_points : Z) (only_time : bool) :
  0 < n_points -> In jit jit_choices ->
  (jit = "cython"%string -> cython_returns n_points only_time) ->
  exists f,
    getitem fcns jit = inr f /\
    runs_with f n_points only_time
      (fun out => only_time = true ->
                  (jit = "cython"%string -> cython_silent n_points) ->
                  out = []).
Proof.
  intros Hn Hin Hcy.
  destruct (getitem_choice jit Hin) as [[-> Hf]|[-> Hf]].
  - exists estimate_pi_numba. split; [exact Hf|].
    intros w. destruct (numba_runs_with n_points only_time ltac:(lia) w)
      as (out & g' & Hrun & HP).
    exists out, g'. split; [exact Hrun|]. intros Hot _. now apply HP.
  - exists estimate_pi_cython_estimate_pi. split; [exact Hf|].
    intros w.
    destruct (cython_runs_with n_points only_time (Hcy eq_refl) w)
      as (out & g' & Hrun & HP).
    exists out, g'. split; [exact Hrun|]. intros Hot Hs. now apply HP, Hs.
Qed.


Lemma concat_all_nil {A} (ls : list (list A)) :
  Forall (fun l => l = []) ls -> List.concat ls = [].
Proof.
  induction 1 as [|l ls -> _ IH]; [reflexivity|exact IH].
Qed.


(** ** Argument parsing *)

Lemma positive_integer_spec (value : string) (z : Z) :
  PyStr.py_int value = Some z ->
  (z <= 0 ->
   positive_integer value =
   inl (ArgumentTypeError (value ++ " is an invalid positive int value"))) /\
  (0 < z -> positive_integer value = inr z).
Proof.
  intros Hint. unfold positive_integer. rewrite Hint.
  split; intros Hz.
  - replace (z <=? 0) with true by (symmetry; apply Z.leb_le; lia).
    reflexivity.
  - replace (z <=? 0) with false by (symmetry; apply Z.leb_gt; lia).
    reflexivity.
Qed.

Lemma positive_integer_positive (value : string) (z : Z) :
  positive_integer value = inr z -> 0 < z.
Proof.
  unfold positive_integer. destruct (PyStr.py_int value) as [i|]; [|discriminate].
  destruct (i <=? 0) eqn:Hi; [discriminate|].
  intros [= <-]. apply Z.leb_gt in Hi. lia.
Qed.

Lemma classify_declared (tok : string) (a : Argument) (e : option string) :
  Argparse.classify parser tok = Argparse.Optional (Some a) e -> In a parser.
Proof.
  unfold Argparse.classify, Argparse.classify_other.
  destruct tok as [|c tok']; [discriminate|].
  destruct (negb (c =? "-")%char); [discriminate|].
  destruct (Argparse.find_action parser (String c tok')) as [a1|] eqn:Hf.
  - intros [= <- _]. apply (find_some _ _ Hf).
  - destruct (String c tok' =? "-")%string; [discriminate|].
    destruct (PyStr.split_eq (String c tok')) as [[o v]|].
    + destruct (Argparse.find_action parser o) as [a1|] eqn:Ho.
      * intros [= <- _]. apply (find_some _ _ Ho).
      * destruct (PyStr.negative_number_like _); [discriminate|].
        destruct (PyStr.contains_space _); discriminate.
    + destruct (PyStr.negative_number_like _); [discriminate|].
      destruct (PyStr.contains_space _); discriminate.
Qed.

Lemma store_value_valid (a : Argument) (v : string) (ns ns' : Namespace) :
  In a parser -> valid_namespace ns ->
  Argparse.store_value a v ns = inr ns' -> valid_namespace ns'.
Proof.
  unfold valid_namespace.
  intros [<-|[<-|[<-|[<-|[]]]]] (Hp & Hr & Hj); cbn [Argparse.store_value].
  - destruct (positive_integer v) as [[]|z] eqn:Hz; try discriminate.
    intros [= <-]. cbn. apply positive_integer_positive in Hz. auto.
  - destruct (existsb (String.eqb v) jit_choices) eqn:Hc; [|discriminate].
    intros [= <-]. cbn [n_points n_repeats jit set_jit].
    apply existsb_exists in Hc. destruct Hc as (x & Hx & Heq).
    apply String.eqb_eq in Heq. subst x. auto.
  - destruct (positive_integer v) as [[]|z] eqn:Hz; try discriminate.
    intros [= <-]. cbn. apply positive_integer_positive in Hz. auto.
  - intros [= <-]. cbn. auto.
Qed.

Lemma consume_valid (n : nat) :
  forall toks ns extras r,
    (List.length toks <= n)%nat -> valid_namespace ns ->
    Argparse.consume parser toks ns extras = inr r ->
    valid_namespace (fst r).
Proof.
  induction n as [|n IH]; intros toks ns extras r Hlen Hns;
    (destruct toks as [|tok rest];
     [intros [= <-]; exact Hns|cbn [List.length] in Hlen; try lia]).
  cbn [Argparse.consume].
  destruct (Argparse.classify parser tok) as [|[a|] e] eqn:Hc;
    try (apply IH; [lia|exact Hns]).
  pose proof (classify_declared _ _ _ Hc) as Hin.
  assert (Hstore : forall v ns', Argparse.store_value a v ns = inr ns' ->
                                 valid_namespace ns')
    by (intros v ns'; apply store_value_valid; assumption).
  destruct a as [o t d|o c d|o d]; destruct e as [e|];
    try discriminate;
    try (destruct (Argparse.store_value _ e ns) as [err|ns'] eqn:Hs;
         [discriminate|apply IH; [lia|exact (Hstore _ _ Hs)]]);
    try (apply IH; [lia|exact (Hstore EmptyString _ eq_refl)]);
    (destruct rest as [|v rest']; [discriminate|];
     destruct (Argparse.classify parser v); [|discriminate];
     destruct (Argparse.store_value _ v ns) as [err|ns'] eqn:Hs;
     [discriminate|cbn [List.length] in Hlen;
                   apply IH; [lia|exact (Hstore _ _ Hs)]]).
Qed.

Lemma defaults_valid : valid_namespace defaults.
Proof. unfold valid_namespace, defaults. cbn. repeat split; try lia. auto. Qed.

Lemma parse_args_valid (arguments : list string) (ns : Namespace) :
  Argparse.parse_args parser defaults arguments = inr ns ->
  valid_namespace ns.
Proof.
  unfold Argparse.parse_args.
  destruct (Argparse.consume parser arguments defaults []) as [err|[ns' ex]]
    eqn:Hc; [discriminate|].
  destruct ex; [|discriminate]. intros [= <-].
  exact (consume_valid _ _ _ _ _ (Nat.le_refl _) defaults_valid Hc).
Qed.

(** A run of tokens that is refused wherever the pass reaches it, and whose
    first token is read as an option, is refused after any tokens. *)
Lemma consume_rejects (t0 : string) (bad : list string) :
  (exists a e, Argparse.classify parser t0 = Argparse.Optional a e) ->
  (forall post ns extras, exists err,
      Argparse.consume parser (t0 :: bad ++ post) ns extras = inl err) ->
  forall n pre post ns extras,
    (List.length pre <= n)%nat ->
    exists err,
      Argparse.consume parser (pre ++ t0 :: bad ++ post) ns extras = inl err.
Proof.
  intros (a0 & e0 & Hc0) Hbad.
  induction n as [|n IH]; intros pre post ns extras Hlen;
    (destruct pre as [|tok rest];
     [apply Hbad|cbn [List.length] in Hlen; try lia]).
  cbn [app Argparse.consume].
  destruct (Argparse.classify parser tok) as [|[a|] e];
    try (apply IH; lia).
  destruct a as [o t d|o c d|o d]; destruct e as [e|];
    try (eexists; reflexivity);
    try (destruct (Argparse.store_value _ e ns) as [err|ns'];
         [eexists; reflexivity|apply IH; lia]);
    try (apply IH; lia);
    (destruct rest as [|v rest']; cbn [app];
     [rewrite Hc0; eexists; reflexivity|];
     destruct (Argparse.classify parser v); [|eexists; reflexivity];
     destruct (Argparse.store_value _ v ns) as [err|ns'];
     [eexists; reflexivity|cbn [List.length] in Hlen; apply IH; lia]).
Qed.

Lemma supplied_value_rejected (o v : string) (a : Argument) :
  Argparse.classify parser o = Argparse.Optional (Some a) None ->
  Argparse.takes_value a = true ->
  (forall ns, exists err, Argparse.store_value a v ns = inl err) ->
  forall pre post ns extras, exists err,
    Argparse.consume parser (pre ++ o :: v :: post) ns extras = inl err.
Proof.
  intros Hc Ht Hv pre post ns extras.
  apply (consume_rejects o [v] (ex_intro _ _ (ex_intro _ _ Hc)))
    with (n := List.length pre); [|lia].
  clear pre post ns extras. intros post ns extras.
  cbn [app Argparse.consume]. rewrite Hc.
  destruct a as [o' t d|o' c d|o' d]; try discriminate Ht;
    (destruct (Argparse.classify parser v); [|eexists; reflexivity];
     destruct (Hv ns) as [err ->]; eexists; reflexivity).
Qed.

Lemma explicit_value_rejected (tok v : string) (a : Argument) :
  Argparse.classify parser tok = Argparse.Optional (Some a) (Some v) ->
  Argparse.takes_value a = true ->
  (forall ns, exists err, Argparse.store_value a v ns = inl err) ->
  forall pre post ns extras, exists err,
    Argparse.consume parser (pre ++ tok :: post) ns extras = inl err.
Proof.
  intros Hc Ht Hv pre post ns extras.
  apply (consume_rejects tok [] (ex_intro _ _ (ex_intro _ _ Hc)))
    with (n := List.length pre) (post := post); [|lia].
  clear pre post ns extras. intros post ns extras.
  cbn [app Argparse.consume]. rewrite Hc.
  destruct a as [o' t d|o' c d|o' d]; try discriminate Ht;
    (destruct (Hv ns) as [err ->]; eexists; reflexivity).
Qed.

Lemma main_rejects (arguments : list string) (w : World rt) :
  (exists err, Argparse.consume parser arguments defaults [] = inl err) ->
  main arguments w = Raised (SystemExit 2) w.
Proof.
  intros [err Hc]. unfold main, bind, Argparse.parse_args. now rewrite Hc.
Qed.

(** [main] either leaves with status 2 before anything runs, or hands
    [run_test] attributes that meet the data model. *)
Lemma main_cases (arguments : list string) (w : World rt) :
  main arguments w = Raised (SystemExit 2) w \/
  exists ns,
    Argparse.parse_args parser defaults arguments = inr ns /\
    valid_namespace ns /\
    main arguments w =
    run_test (n_points ns) (n_repeats ns) (only_time ns) (jit ns) w.
Proof.
  unfold main, bind.
  destruct (Argparse.parse_args parser defaults arguments) as [e|ns] eqn:Hp.
  - left. unfold Argparse.parse_args in Hp.
    destruct (Argparse.consume parser arguments defaults []) as [?|[? []]];
      try discriminate Hp; injection Hp as <-; reflexivity.
  - right. exists ns. repeat split; try reflexivity.
    all: apply (parse_args_valid _ _ Hp).
Qed.

Lemma count_option_rejected (option value : string) (z : Z) :
  In option count_options -> PyStr.py_int value = Some z -> z <= 0 ->
  forall pre post ns extras,
    (exists err,
        Argparse.consume parser (pre ++ option :: value :: post) ns extras
        = inl err) /\
    (exists err,
        Argparse.consume parser
          (pre ++ (option ++ "=" ++ value)%string :: post) ns extras
        = inl err).
Proof.
  intros Hin Hint Hz pre post ns extras.
  destruct (positive_integer_spec value z Hint) as [Hbad _].
  specialize (Hbad Hz).
  assert (Hstore : forall os d ns0, exists err,
             Argparse.store_value (StoreInt os positive_integer d) value ns0
             = inl err).
  { intros os d ns0. cbn [Argparse.store_value]. rewrite Hbad.
    eexists; reflexivity. }
  destruct Hin as [<-|[<-|[<-|[<-|[]]]]]; split;
    first [ eapply supplied_value_rejected;
            [reflexivity|reflexivity|intros ns0; apply Hstore]
          | eapply explicit_value_rejected;
            [reflexivity|reflexivity|intros ns0; apply Hstore] ].
Qed.


Lemma unknown_choice_rejected (value : string) :
  ~ In value jit_choices ->
  forall pre post ns extras,
    (exists err,
        Argparse.consume parser (pre ++ "--jit"%string :: value :: post)
          ns extras = inl err) /\
    (exists err,
        Argparse.consume parser (pre ++ ("--jit=" ++ value)%string :: post)
          ns extras = inl err).
Proof.
  intros Hno pre post ns extras.
  assert (Hstore : forall os d ns0, exists err,
             Argparse.store_value (StoreChoice os jit_choices d) value ns0
             = inl err).
  { intros os d ns0. cbn [Argparse.store_value].
    destruct (existsb (String.eqb value) jit_choices) eqn:Hc;
      [|eexists; reflexivity].
    exfalso. apply Hno. apply existsb_exists in Hc.
    destruct Hc as (x & Hx & Heq). apply String.eqb_eq in Heq. now subst x. }
  split;
    first [ eapply supplied_value_rejected;
            [reflexivity|reflexivity|intros ns0; apply Hstore]
          | eapply explicit_value_rejected;
            [reflexivity|reflexivity|intros ns0; apply Hstore] ].
Qed.


(** C10 (as amended).  If [run_test] is called directly with
    [n_repeats >= 1] and a [jit] string outside the two keys, the lookup of
    the first iteration raises [KeyError] before any estimator runs and
    before anything is printed.  The keys of the dictionary are exactly the
    choices of [--jit], and nothing else in [run_test] looks at the backend:
    the choices list of [main] is what keeps the lookup from failing. *)
Theorem unknown_backend_raises_key_error :
  (forall n_points n_repeats only_time jit w,
      0 < n_repeats -> ~ In jit jit_choices ->
      run_test n_points n_repeats only_time jit w =
      Raised (KeyError jit)
        {| rng := rng w; clock_reads := S (clock_reads w);
           trace := trace w |}) /\
  (forall jit, In jit jit_choices <-> exists f, getitem fcns jit = inr f) /\
  (forall arguments ns,
      Argparse.parse_args parser defaults arguments = inr ns ->
      exists f, getitem fcns (jit ns) = inr f).
Proof.
  assert (Hkeys : forall jit, In jit jit_choices ->
                              exists f, getitem fcns jit = inr f).
  { intros jit Hin. destruct (getitem_choice jit Hin) as [[_ H]|[_ H]];
      eexists; exact H. }
  split; [|split].
  - intros n r ot jit w Hr Hno. apply run_test_raises.
    destruct (Z.to_nat r) as [|k] eqn:Hk; [lia|].
    rewrite for_range_succ.
    now rewrite (call_estimator_missing _ _ _ _ _ (getitem_unknown jit Hno)).
  - intros jit. split; [apply Hkeys|].
    intros [f Hf]. destruct (in_dec string_dec jit jit_choices) as [H|H];
      [exact H|]. rewrite (getitem_unknown jit H) in Hf. discriminate.
  - intros arguments ns Hp. apply Hkeys, (parse_args_valid _ _ Hp).
Qed.

(** ** Reproducibility *)

Lemma new_output_appended {A} (w w' : World rt) (o : outcome A) (out : list string) :
  world_of o = w' -> stdout w' = stdout w ++ out -> new_output w o = out.
Proof.
  intros <- H. unfold new_output. rewrite H, skipn_app, skipn_all.
  now rewrite Nat.sub_diag.
Qed.

Lemma estimate_output (n_points : Z) (show_estimate : bool) (w : World rt) :
  n_points <> 0 ->
  new_output w (estimate_pi_numba n_points show_estimate w) =
  if show_estimate then []
  else [estimate_line (pi_estimate (G rt) (uniform rt) n_points (rng w))].
Proof.
  intros Hn. eapply new_output_appended; [reflexivity|].
  rewrite (estimate_pi_numba_run _ _ _ Hn). unfold stdout.
  cbn [world_of trace]. rewrite printed_app.
  destruct show_estimate; reflexivity.
Qed.

Lemma same_draws_same_estimate (n_points : Z) (g1 g2 : G rt) :
  draws (G rt) (uniform rt) (2 * Z.to_nat n_points) g1 =
  draws (G rt) (uniform rt) (2 * Z.to_nat n_points) g2 ->
  sample_points (G rt) (uniform rt) (Z.to_nat n_points) g1 =
  sample_points (G rt) (uniform rt) (Z.to_nat n_points) g2 /\
  within_circle (G rt) (uniform rt) n_points g1 =
  within_circle (G rt) (uniform rt) n_points g2 /\
  pi_estimate (G rt) (uniform rt) n_points g1 =
  pi_estimate (G rt) (uniform rt) n_points g2.
Proof.
  intros Hd.
  assert (Hp : sample_points (G rt) (uniform rt) (Z.to_nat n_points) g1 =
               sample_points (G rt) (uniform rt) (Z.to_nat n_points) g2)
    by (rewrite !sample_points_draws; now rewrite Hd).
  assert (Hw : within_circle (G rt) (uniform rt) n_points g1 =
               within_circle (G rt) (uniform rt) n_points g2)
    by (rewrite !within_circle_points; unfold points_inside; now rewrite Hp).
  repeat split; [exact Hp|exact Hw|].
  unfold pi_estimate. now rewrite Hw.
Qed.


(** * Further properties of the estimator and the harness *)

Lemma advance_add (S0 : Type) (draw : S0 -> Q * S0) (a b : nat) :
  forall g, advance S0 draw (a + b) g = advance S0 draw b (advance S0 draw a g).
Proof.
  induction a as [|a IH]; intros g; [reflexivity|].
  cbn [Nat.add advance]. apply IH.
Qed.

Lemma rng_after_advance (n_points : Z) (g : G rt) :
  rng_after n_points g =
  advance (G rt) (uniform rt) (2 * Z.to_nat n_points) g.
Proof. unfold rng_after. apply sample_loop_rng. Qed.

Lemma rng_after_runs_advance (k : nat) (n_points : Z) :
  forall g,
    rng_after_runs k n_points g =
    advance (G rt) (uniform rt) (k * (2 * Z.to_nat n_points)) g.
Proof.
  induction k as [|k IH]; intros g; [reflexivity|].
  cbn [rng_after_runs Nat.mul]. rewrite IH, rng_after_advance.
  symmetry. apply advance_add.
Qed.


(** X2.  With zero samples the estimator divides by zero: it raises
    [ZeroDivisionError] without printing, and a harness run of the numba
    estimator with [n_points = 0] and at least one repeat ends in that error
    inside its first call, before any timing line. *)
Theorem zero_samples_raise_zero_division :
  (forall show_estimate w,
      estimate_pi_numba 0 show_estimate w = Raised ZeroDivisionError w) /\
  (forall n_repeats only_time w,
      0 < n_repeats ->
      run_test 0 n_repeats only_time "numba" w =
      Raised ZeroDivisionError
        {| rng := rng w; clock_reads := S (clock_reads w);
           trace := trace w ++ [Call "numba" 0 only_time] |}).
Proof.
  split; [exact estimate_pi_numba_zero|].
  intros r ot w Hr. apply run_test_raises.
  destruct (Z.to_nat r) as [|k] eqn:Hk; [lia|].
  rewrite for_range_succ.
  rewrite (call_estimator_found "numba" estimate_pi_numba) by reflexivity.
  now rewrite estimate_pi_numba_zero.
Qed.





Lemma round64_canonical (q : Q) : Qred (PyFloat.round64 q) = PyFloat.round64 q.
Proof.
  unfold PyFloat.round64. destruct (Qnum q); [reflexivity| |];
    apply Qred_complete, Qred_correct.
Qed.

Lemma round64_ge_4 (q : Q) : (q == 4)%Q -> (4 <= PyFloat.round64 q)%Q.
Proof.
  intros Hq.
  assert (H4 : (q <= 4)%Q) by (rewrite Hq; apply Qle_refl).
  assert (H4' : (4 <= q)%Q) by (rewrite Hq; apply Qle_refl).
  unfold PyFloat.round64. destruct q as [n d]. simpl Qnum.
  destruct n as [|p|p]; [discriminate Hq| |discriminate Hq].
  change (Qabs (Zpos p # d)) with (Zpos p # d).
  change (Zpos p <? 0) with false. cbv iota.
  pose proof (binade_le_2 p d H4) as Hb.
  set (e := Z.max (PyFloat.binade (Zpos p # d)) (-1022)).
  assert (He : e <= 54) by (unfold e; lia).
  pose proof (pow2_pos (e - 52)) as Hulp.
  rewrite Qred_correct.
  assert (Hm : 2 ^ (54 - e)
               <= PyFloat.round_half_even ((Zpos p # d) / PyFloat.pow2 (e - 52))).
  { apply round_half_even_lower. rewrite (pow2_quotient e He).
    apply Qmult_le_compat_r; [exact H4'|].
    apply Qlt_le_weak, Qinv_lt_0_compat, Hulp. }
  rewrite Zle_Qle in Hm. rewrite (pow2_quotient e He) in Hm.
  apply Qle_trans with (4 / PyFloat.pow2 (e - 52) * PyFloat.pow2 (e - 52))%Q.
  - apply Qle_lteq. right. field.
    intros Hz. rewrite Hz in Hulp. discriminate.
  - apply Qmult_le_compat_r; [exact Hm|apply Qlt_le_weak, Hulp].
Qed.

Lemma round64_4 (q : Q) : (q == 4)%Q -> PyFloat.round64 q = 4%Q.
Proof.
  intros Hq. rewrite <- round64_canonical.
  change 4%Q with (Qred 4). apply Qred_complete.
  apply Qle_antisym.
  - apply round64_le_4; rewrite Hq; discriminate.
  - now apply round64_ge_4.
Qed.


Lemma format_4f_unsigned (q : Q) :
  (0 <= q)%Q -> PyFloat.is_unsigned_fixed4 (PyFloat.format_4f q) = true.
Proof.
  intros Hq.
  assert (Hsign : (Qnum q <? 0) = false).
  { apply Z.ltb_ge. destruct q as [a b]. unfold Qle in Hq.
    cbn [Qnum Qden] in Hq |- *. lia. }
  unfold PyFloat.format_4f, PyFloat.is_unsigned_fixed4, PyFloat.sign_text.
  rewrite Hsign. set (m := PyFloat.round_half_even _).
  destruct (str_nat_digits (m / 10000)) as [Hall Hne].
  destruct (four_digits_shape m) as [Hlen Hfs].
  cbn [append]. apply int_point_frac4_digits; auto.
Qed.

Lemma average_seconds_nonneg (w : World rt) (n_repeats : Z) :
  0 < n_repeats ->
  (clock rt (clock_reads w) <= clock rt (S (clock_reads w)))%Q ->
  (0 <= average_seconds w n_repeats)%Q.
Proof.
  intros Hr Hclock. unfold average_seconds. apply round64_nonneg.
  apply Qmult_le_0_compat.
  - apply round64_nonneg. now apply -> Qle_minus_iff.
  - apply Qinv_le_0_compat. unfold PyFloat.of_int.
    apply round64_nonneg. change 0%Q with (inject_Z 0).
    rewrite <- Zle_Qle. lia.
Qed.


Lemma rejected_value_not_stored (value : string) :
  (forall z, positive_integer value <> inr z) ->
  forall os d ns, exists err,
    Argparse.store_value (StoreInt os positive_integer d) value ns = inl err.
Proof.
  intros Hbad os d ns. cbn [Argparse.store_value].
  destruct (positive_integer value) as [e|z] eqn:Hp.
  - destruct e; eexists; reflexivity.
  - exfalso. exact (Hbad z eq_refl).
Qed.


Lemma numba_events_printed_length (k : nat) (n_points : Z) (only_time : bool) :
  forall g,
    List.length (printed (numba_events k n_points only_time g)) =
    if only_time then 0%nat else k.
Proof.
  intros g. destruct only_time.
  - now rewrite numba_events_printed_silent.
  - rewrite numba_events_printed_shown.
    apply (estimate_lines_shape k n_points g).
Qed.



Lemma classify_exact (tok : string) (a : Argument) :
  Argparse.classify parser tok = Argparse.Optional (Some a) None ->
  Argparse.has_option tok a = true.
Proof.
  unfold Argparse.classify, Argparse.classify_other.
  destruct tok as [|c tok']; [discriminate|].
  destruct (negb (c =? "-")%char); [discriminate|].
  destruct (Argparse.find_action parser (String c tok')) as [a1|] eqn:Hf.
  - intros [= <-]. apply (find_some _ _ Hf).
  - destruct (String c tok' =? "-")%string; [discriminate|].
    destruct (PyStr.split_eq (String c tok')) as [[o v]|].
    + destruct (Argparse.find_action parser o) as [a1|]; [discriminate|].
      destruct (PyStr.negative_number_like _); [discriminate|].
      destruct (PyStr.contains_space _); discriminate.
    + destruct (PyStr.negative_number_like _); [discriminate|].
      destruct (PyStr.contains_space _); discriminate.
Qed.

Lemma classify_only_time_flag :
  Argparse.classify parser "--only-time" =
  Argparse.Optional (Some (StoreTrue ["--only-time"%string] set_only_time)) None.
Proof. reflexivity. Qed.

Lemma store_value_keeps_only_time (a : Argument) (v : string)
    (ns ns' : Namespace) :
  In a parser -> Argparse.takes_value a = true ->
  Argparse.store_value a v ns = inr ns' -> only_time ns' = only_time ns.
Proof.
  intros [<-|[<-|[<-|[<-|[]]]]] Ht; try discriminate Ht;
    cbn [Argparse.store_value].
  - destruct (positive_integer v) as [[]|z]; try discriminate.
    now intros [= <-].
  - destruct (existsb (String.eqb v) jit_choices); [|discriminate].
    now intros [= <-].
  - destruct (positive_integer v) as [[]|z]; try discriminate.
    now intros [= <-].
Qed.

Lemma consume_only_time (n : nat) :
  forall toks ns extras r,
    (List.length toks <= n)%nat ->
    Argparse.consume parser toks ns extras = inr r ->
    only_time (fst r) =
    only_time ns || existsb (String.eqb "--only-time") toks.
Proof.
  induction n as [|n IH]; intros toks ns extras r Hlen;
    (destruct toks as [|tok rest];
     [intros [= <-]; cbn [fst existsb]; now rewrite orb_false_r
     |cbn [List.length] in Hlen; try lia]).
  cbn [Argparse.consume existsb].
  destruct (String.eqb_spec "--only-time" tok) as [<-|Hne].
  - rewrite classify_only_time_flag. intros Hc.
    apply IH in Hc; [|lia]. rewrite Hc. cbn [only_time set_only_time].
    now rewrite orb_true_r.
  - cbn [orb].
    destruct (Argparse.classify parser tok) as [|[a|] e] eqn:Hc;
      try (apply IH; lia).
    pose proof (classify_declared _ _ _ Hc) as Hin.
    assert (Hkeep : forall v ns', Argparse.takes_value a = true ->
                                  Argparse.store_value a v ns = inr ns' ->
                                  only_time ns' = only_time ns)
      by (intros v ns'; now apply store_value_keeps_only_time).
    destruct a as [o t d|o c d|o d]; destruct e as [e|];
      try discriminate;
      try (destruct (Argparse.store_value _ e ns) as [err|ns'] eqn:Hs;
           [discriminate|];
           intros Hr; apply IH in Hr; [|lia]; rewrite Hr;
           now rewrite (Hkeep _ _ eq_refl Hs)).
    + destruct rest as [|v rest']; [discriminate|].
      destruct (Argparse.classify parser v) eqn:Hv; [|discriminate].
      destruct (Argparse.store_value _ v ns) as [err|ns'] eqn:Hs;
        [discriminate|].
      cbn [List.length] in Hlen. intros Hr.
      apply IH in Hr; [|lia]. rewrite Hr, (Hkeep _ _ eq_refl Hs).
      cbn [existsb].
      destruct (String.eqb_spec "--only-time" v) as [<-|_]; [|reflexivity].
      rewrite classify_only_time_flag in Hv. discriminate Hv.
    + destruct rest as [|v rest']; [discriminate|].
      destruct (Argparse.classify parser v) eqn:Hv; [|discriminate].
      destruct (Argparse.store_value _ v ns) as [err|ns'] eqn:Hs;
        [discriminate|].
      cbn [List.length] in Hlen. intros Hr.
      apply IH in Hr; [|lia]. rewrite Hr, (Hkeep _ _ eq_refl Hs).
      cbn [existsb].
      destruct (String.eqb_spec "--only-time" v) as [<-|_]; [|reflexivity].
      rewrite classify_only_time_flag in Hv. discriminate Hv.
    + exfalso. apply Hne. pose proof (classify_exact _ _ Hc) as Hopt.
      destruct Hin as [H|[H|[H|[H|[]]]]]; try discriminate H.
      injection H as <- <-. unfold Argparse.has_option in Hopt.
      cbn [option_strings_of existsb] in Hopt.
      rewrite orb_false_r in Hopt. apply String.eqb_eq in Hopt.
      now subst tok.
Qed.



(** ** Decimal numerals read back *)

Lemma digit_char_value (d : Z) :
  0 <= d < 10 ->
  Z.of_nat (nat_of_ascii (PyFloat.digit_char d)) - 48 = d.
Proof.
  intros H. unfold PyFloat.digit_char. rewrite nat_ascii_embedding by lia. lia.
Qed.

Lemma parse_digit_step (c : ascii) (s : list ascii) (acc : Z) (prev : bool) :
  PyFloat.is_digit c = true ->
  PyStr.parse_digits (c :: s) acc prev =
  PyStr.parse_digits s (10 * acc + (Z.of_nat (nat_of_ascii c) - 48)) true.
Proof. intros H. cbn [PyStr.parse_digits]. now rewrite H. Qed.

Lemma parse_decimal_digits (fuel : nat) :
  forall n acc prev,
    0 <= n < 2 ^ Z.of_nat fuel -> (0 < fuel)%nat ->
    PyStr.parse_digits
      (list_ascii_of_string (PyFloat.decimal_digits fuel n acc)) 0 prev =
    PyStr.parse_digits (list_ascii_of_string acc) n true.
Proof.
  induction fuel as [|fuel IH]; intros n acc prev Hn Hfuel; [lia|].
  change (PyFloat.decimal_digits (S fuel) n acc)
    with (let acc' := String (PyFloat.digit_char (n mod 10)) acc in
          if n / 10 =? 0 then acc'
          else PyFloat.decimal_digits fuel (n / 10) acc').
  cbv zeta.
  pose proof (Z.mod_pos_bound n 10 ltac:(lia)) as Hmod.
  pose proof (Z.div_mod n 10 ltac:(lia)) as Hdiv.
  assert (Hstep : forall a p,
             PyStr.parse_digits
               (list_ascii_of_string
                  (String (PyFloat.digit_char (n mod 10)) acc)) a p =
             PyStr.parse_digits (list_ascii_of_string acc)
               (10 * a + n mod 10) true).
  { intros a p. cbn [list_ascii_of_string].
    rewrite parse_digit_step by apply is_digit_mod10.
    now rewrite digit_char_value. }
  destruct (Z.eqb_spec (n / 10) 0) as [Hz|Hnz].
  - rewrite Hstep. f_equal. lia.
  - assert (Hq : 0 <= n / 10 < 2 ^ Z.of_nat fuel).
    { split; [apply Z.div_pos; lia|].
      apply Z.div_lt_upper_bound; [lia|].
      rewrite Nat2Z.inj_succ, Z.pow_succ_r in Hn by lia. lia. }
    assert (Hf : (0 < fuel)%nat).
    { destruct fuel; [|lia]. change (2 ^ Z.of_nat 0) with 1 in Hq. lia. }
    rewrite (IH _ _ _ Hq Hf), Hstep. f_equal. lia.
Qed.

Lemma all_digits_forallb (s : string) :
  PyFloat.all_digits s = forallb PyFloat.is_digit (list_ascii_of_string s).
Proof.
  induction s as [|c s IH]; cbn [PyFloat.all_digits list_ascii_of_string forallb];
    [reflexivity|now rewrite IH].
Qed.

Lemma length_list_ascii (s : string) :
  List.length (list_ascii_of_string s) = String.length s.
Proof.
  induction s as [|c s IH]; cbn [list_ascii_of_string List.length String.length];
    [reflexivity|now rewrite IH].
Qed.

Lemma digit_not_space (c : ascii) :
  PyFloat.is_digit c = true ->
  PyStr.is_space c = false /\ c <> "-"%char /\ c <> "+"%char.
Proof.
  intros H.
  destruct c as [[] [] [] [] [] [] [] []]; try discriminate H;
    repeat split; discriminate.
Qed.

Lemma lstrip_digits (l : list ascii) :
  forallb PyFloat.is_digit l = true -> PyStr.lstrip l = l.
Proof.
  destruct l as [|c l]; [reflexivity|]. cbn [forallb PyStr.lstrip].
  intros H. apply andb_prop in H. destruct H as [Hc _].
  now rewrite (proj1 (digit_not_space c Hc)).
Qed.

Lemma strip_digits (l : list ascii) :
  forallb PyFloat.is_digit l = true -> PyStr.strip l = l.
Proof.
  intros H. unfold PyStr.strip. rewrite (lstrip_digits l H).
  rewrite lstrip_digits; [apply rev_involutive|].
  rewrite forallb_forall in *. intros c Hc. apply H. now apply in_rev.
Qed.

Lemma filter_digits (l : list ascii) :
  forallb PyFloat.is_digit l = true -> filter PyFloat.is_digit l = l.
Proof. apply filter_all. Qed.

Lemma py_int_str_nat (n : Z) :
  0 <= n ->
  (String.length (PyFloat.str_nat n) <= PyStr.max_str_digits)%nat ->
  PyStr.py_int (PyFloat.str_nat n) = Some n.
Proof.
  intros Hn Hlen.
  destruct (str_nat_digits n) as [Hall Hne].
  rewrite all_digits_forallb in Hall.
  unfold PyStr.py_int. rewrite (strip_digits _ Hall), (filter_digits _ Hall).
  rewrite length_list_ascii.
  replace (PyStr.max_str_digits <? String.length (PyFloat.str_nat n))%nat
    with false by (symmetry; apply Nat.ltb_ge; exact Hlen).
  assert (Hparse : PyStr.parse_digits
                     (list_ascii_of_string (PyFloat.str_nat n)) 0 false
                   = Some n).
  { unfold PyFloat.str_nat. rewrite parse_decimal_digits; [reflexivity| |lia].
    split; [exact Hn|].
    rewrite Nat2Z.inj_succ, Z2Nat.id by apply Z.log2_nonneg.
    destruct (Z.eq_dec n 0) as [->|Hnz]; [reflexivity|].
    apply Z.log2_spec. lia. }
  destruct (list_ascii_of_string (PyFloat.str_nat n)) as [|c l] eqn:Hl;
    [exact Hparse|].
  cbn [forallb] in Hall. apply andb_prop in Hall. destruct Hall as [Hc _].
  destruct c as [[] [] [] [] [] [] [] []]; try discriminate Hc; exact Hparse.
Qed.

(** X11.  [positive_integer] reads decimal numerals back: given the plain
    decimal numeral of a positive integer, of no more digits than [int]
    converts, it returns that integer. *)
Theorem positive_integer_reads_decimal_numeral (n : Z) :
  0 < n ->
  (String.length (PyFloat.str_nat n) <= PyStr.max_str_digits)%nat ->
  positive_integer (PyFloat.str_nat n) = inr n.
Proof.
  intros Hn Hlen.
  apply (proj2 (positive_integer_spec _ n (py_int_str_nat n ltac:(lia) Hlen))).
  exact Hn.
Qed.


(** ** Defaults *)

Lemma classify_names (tok : string) (a : Argument) (e : option string) :
  Argparse.classify parser tok = Argparse.Optional (Some a) e ->
  Argparse.names_option (option_strings_of a) tok = true.
Proof.
  unfold Argparse.classify, Argparse.classify_other, Argparse.names_option.
  destruct tok as [|c tok']; [discriminate|].
  destruct (negb (c =? "-")%char); [discriminate|].
  destruct (Argparse.find_action parser (String c tok')) as [a1|] eqn:Hf.
  - intros [= <- _]. apply find_some in Hf. destruct Hf as [_ Hf].
    unfold Argparse.has_option in Hf. now rewrite Hf.
  - destruct (String c tok' =? "-")%string; [discriminate|].
    destruct (PyStr.split_eq (String c tok')) as [[o v]|].
    + destruct (Argparse.find_action parser o) as [a1|] eqn:Ho.
      * intros [= <- _]. apply find_some in Ho. destruct Ho as [_ Ho].
        unfold Argparse.has_option in Ho. rewrite Ho. apply orb_true_r.
      * destruct (PyStr.negative_number_like _); [discriminate|].
        destruct (PyStr.contains_space _); discriminate.
    + destruct (PyStr.negative_number_like _); [discriminate|].
      destruct (PyStr.contains_space _); discriminate.
Qed.

(** An attribute keeps its value over a pass in which no token names an
    option that stores into it. *)
Lemma consume_keeps_attribute {A} (f : Namespace -> A) (opts : list string) :
  (forall a, In a parser ->
             option_strings_of a = opts \/
             forall v ns ns', Argparse.store_value a v ns = inr ns' ->
                              f ns' = f ns) ->
  forall n toks ns extras r,
    (List.length toks <= n)%nat ->
    Argparse.consume parser toks ns extras = inr r ->
    forallb (fun t => negb (Argparse.names_option opts t)) toks = true ->
    f (fst r) = f ns.
Proof.
  intros Hattr.
  induction n as [|n IH]; intros toks ns extras r Hlen;
    (destruct toks as [|tok rest];
     [intros [= <-] _; reflexivity|cbn [List.length] in Hlen; try lia]).
  cbn [Argparse.consume forallb]. intros Hc Hno.
  apply andb_prop in Hno. destruct Hno as [Htok Hrest].
  destruct (Argparse.classify parser tok) as [|[a|] e] eqn:Hcl;
    try (eapply IH; [|exact Hc|exact Hrest]; lia).
  pose proof (classify_declared _ _ _ Hcl) as Hin.
  pose proof (classify_names _ _ _ Hcl) as Hnames.
  destruct (Hattr a Hin) as [Hopts|Hkeep].
  { rewrite Hopts in Hnames. rewrite Hnames in Htok. discriminate Htok. }
  destruct a as [o t d|o c d|o d]; destruct e as [e|];
    try discriminate Hc;
    try (destruct (Argparse.store_value _ e ns) as [err|ns'] eqn:Hs;
         [discriminate Hc|];
         rewrite <- (Hkeep _ _ _ Hs);
         eapply IH; [|exact Hc|exact Hrest]; lia);
    try (rewrite <- (Hkeep EmptyString ns (d true ns) eq_refl);
         eapply IH; [|exact Hc|exact Hrest]; lia);
    (destruct rest as [|v rest']; [discriminate Hc|];
     destruct (Argparse.classify parser v); [|discriminate Hc];
     destruct (Argparse.store_value _ v ns) as [err|ns'] eqn:Hs;
     [discriminate Hc|];
     cbn [List.length] in Hlen; cbn [forallb] in Hrest;
     apply andb_prop in Hrest; destruct Hrest as [_ Hrest'];
     rewrite <- (Hkeep _ _ _ Hs);
     eapply IH; [|exact Hc|exact Hrest']; lia).
Qed.

Lemma parse_args_keeps_default {A} (f : Namespace -> A) (opts : list string)
    (arguments : list string) (ns : Namespace) :
  (forall a, In a parser ->
             option_strings_of a = opts \/
             forall v ns0 ns', Argparse.store_value a v ns0 = inr ns' ->
                               f ns' = f ns0) ->
  Argparse.parse_args parser defaults arguments = inr ns ->
  forallb (fun t => negb (Argparse.names_option opts t)) arguments = true ->
  f ns = f defaults.
Proof.
  intros Hattr. unfold Argparse.parse_args.
  destruct (Argparse.consume parser arguments defaults []) as [err|[ns' ex]]
    eqn:Hc; [discriminate|].
  destruct ex; [|discriminate]. intros [= <-] Hno.
  exact (consume_keeps_attribute f opts Hattr _ _ _ _ _ (Nat.le_refl _) Hc Hno).
Qed.



(** ** Repeats and the random stream *)

Lemma nth_estimate_line (k : nat) (n_points : Z) :
  forall i g,
    (i < k)%nat ->
    nth_error (estimate_lines k n_points g) i =
    Some (estimate_line
            (pi_estimate (G rt) (uniform rt) n_points
               (advance (G rt) (uniform rt) (i * (2 * Z.to_nat n_points)) g))).
Proof.
  induction k as [|k IH]; intros i g Hi; [lia|].
  cbn [estimate_lines]. destruct i as [|i]; [reflexivity|].
  cbn [nth_error]. rewrite IH by lia. rewrite rng_after_advance.
  set (m := (2 * Z.to_nat n_points)%nat).
  change (S i * m)%nat with (m + i * m)%nat.
  now rewrite advance_add.
Qed.


(** ** Text that is no integer *)

Lemma parse_digits_bad_char (c : ascii) (s : list ascii) :
  In c s -> PyFloat.is_digit c = false -> c <> "_"%char ->
  forall acc prev, PyStr.parse_digits s acc prev = None.
Proof.
  intros Hin Hd Hu. induction s as [|c0 s IH]; [contradiction|].
  intros acc prev. cbn [PyStr.parse_digits].
  destruct Hin as [->|Hin].
  - rewrite Hd. destruct (Ascii.eqb_spec c "_"); [contradiction|reflexivity].
  - destruct (PyFloat.is_digit c0); [now apply IH|].
    destruct ((c0 =? "_")%char && prev); [now apply IH|reflexivity].
Qed.

Lemma in_lstrip (c : ascii) (l : list ascii) :
  In c l -> PyStr.is_space c = false -> In c (PyStr.lstrip l).
Proof.
  intros Hin Hs. induction l as [|c0 l IH]; [contradiction|].
  cbn [PyStr.lstrip]. destruct (PyStr.is_space c0) eqn:H0; [|exact Hin].
  destruct Hin as [->|Hin]; [congruence|now apply IH].
Qed.

Lemma in_strip (c : ascii) (l : list ascii) :
  In c l -> PyStr.is_space c = false -> In c (PyStr.strip l).
Proof.
  intros Hin Hs. unfold PyStr.strip.
  apply in_rev. rewrite rev_involutive.
  apply in_lstrip; [|exact Hs]. apply -> in_rev. now apply in_lstrip.
Qed.

(** X14.  Text that holds an ASCII character other than a digit, an
    underscore, a sign or white space is no integer: [positive_integer]
    raises [ValueError] for it. *)
Theorem positive_integer_rejects_other_characters (value : string) (c : ascii) :
  In c (list_ascii_of_string value) -> (nat_of_ascii c < 128)%nat ->
  PyFloat.is_digit c = false -> PyStr.is_space c = false ->
  c <> "_"%char -> c <> "-"%char -> c <> "+"%char ->
  positive_integer value = inl ValueError.
Proof.
  intros Hin _ Hd Hs Hu Hm Hp.
  assert (Hint : PyStr.py_int value = None).
  { unfold PyStr.py_int.
    pose proof (in_strip c _ Hin Hs) as Hbody.
    destruct (_ <? _)%nat; [reflexivity|].
    pose proof (parse_digits_bad_char c _ Hbody Hd Hu 0 false) as Hall.
    destruct (PyStr.strip (list_ascii_of_string value)) as [|c0 r] eqn:Hb;
      [contradiction|].
    assert (Hr : c0 = c \/ PyStr.parse_digits r 0 false = None).
    { destruct Hbody as [H|H]; [now left|right].
      now apply (parse_digits_bad_char c r H Hd Hu). }
    destruct c0 as [[] [] [] [] [] [] [] []]; try exact Hall;
      (destruct Hr as [<- | ->]; [congruence|reflexivity]). }
  unfold positive_integer. now rewrite Hint.
Qed.

End Program.

Arguments Returned {rt A} a w.
Arguments Raised {rt A} e w.
Arguments world_of {rt A} o.
Arguments value_of {rt A} o.
Arguments raised_of {rt A} o.
Arguments exit_status {rt A} o.
Arguments stdout {rt} w.
Arguments new_output {rt A} w o.

(** * The model at work: a demonstration runtime *)

Example demo_full_report :
  stdout (world_of (run_test Demo.runtime 5 2 false "numba" Demo.start)) =
  [ "Final Estimation of Pi= 3.2"; "Final Estimation of Pi= 4.0";
    "Test run was done with 5.00e+00";
    "Estimating pi took 0.1667 seconds per run." ]%string.
Proof. vm_compute. reflexivity. Qed.

Example demo_only_time :
  stdout (world_of (run_test Demo.runtime 5 2 true "cython" Demo.start)) =
  [ "0.1667"%string ].
Proof. vm_compute. reflexivity. Qed.

Example demo_main :
  trace (world_of
           (main Demo.runtime
              ["-p"; "1_000"; "--jit=numba"; "-r"; "1"; "--only-time"]%string
              Demo.start)) =
  [ Call "numba" 1000 true; Print "0.3333" ].
Proof. vm_compute. reflexivity. Qed.

Example demo_main_rejects :
  map (fun arguments => exit_status (main Demo.runtime arguments Demo.start))
    [ ["-p"; "0"]; ["-p"; "-5"]; ["--n_repeats=0"]; ["--jit"; "none"];
      ["-p"; "ten"]; ["--only-time"; "extra"]; ["-r"] ]%string =
  [2; 2; 2; 2; 2; 2; 2].
Proof. vm_compute. reflexivity. Qed.

Example demo_formats :
  map PyFloat.format_4f [1 # 3; 12345 # 10000; - (1 # 300000); 2 # 1]%Q =
  [ "0.3333"; "1.2345"; "-0.0000"; "2.0000" ]%string /\
  map (fun n => PyFloat.format_2e (PyFloat.of_int n)) [10000000; 1; 999999; 1234] =
  [ "1.00e+07"; "1.00e+00"; "1.00e+06"; "1.23e+03" ]%string /\
  map PyFloat.repr
    [PyFloat.round64 (1 # 10); 4; PyFloat.round64 (4 # 10000000);
     PyFloat.round64 (22 # 7)]%Q =
  [ "0.1"; "4.0"; "4e-07"; "3.142857142857143" ]%string.
Proof. vm_compute. repeat split. Qed.

Lemma demo_cython_returns (n_points : Z) (show_estimate : bool) :
  n_points <> 0 -> cython_returns Demo.runtime n_points show_estimate.
Proof.
  intros Hn g. cbn [estimate_pi_cython Demo.runtime].
  unfold Demo.compiled_loop.
  destruct (sample_loop Z Demo.lcg_uniform (Z.to_nat n_points) g 0) as [c g'].
  unfold int_truediv. apply Z.eqb_neq in Hn. rewrite Hn.
  eexists _, _. reflexivity.
Qed.

Lemma demo_cython_silent (n_points : Z) : cython_silent Demo.runtime n_points.
Proof.
  intros g out g'. cbn [estimate_pi_cython Demo.runtime].
  unfold Demo.compiled_loop.
  destruct (sample_loop Z Demo.lcg_uniform (Z.to_nat n_points) g 0) as [c g1].
  destruct (int_truediv (4 * c) n_points); [discriminate|].
  now intros [= <- _].
Qed.

(** * Instances of the claims and inputs that refute the original wording *)












(** C10 as first stated, for any direct call, fails: without a first
    iteration there is no lookup.  With [n_repeats = 0] the call ends in the
    division of line 85 instead. *)
Lemma key_error_needs_an_iteration :
  raised_of (run_test Demo.runtime 5 0 true "none" Demo.start)
  = Some ZeroDivisionError /\
  ~ exists w',
      run_test Demo.runtime 5 0 true "none" Demo.start =
      Raised (KeyError "none") w'.
Proof.
  split; [vm_compute; reflexivity|].
  intros [w' H]. apply (f_equal raised_of) in H.
  vm_compute in H. discriminate H.
Qed.

Lemma unknown_backend_witness :
  (0 < 1 /\ ~ In "none"%string jit_choices /\
   In "numba"%string jit_choices) /\
  run_test Demo.runtime 5 1 true "none" Demo.start =
  Raised (KeyError "none")
    {| rng := rng Demo.start; clock_reads := S (clock_reads Demo.start);
       trace := trace Demo.start |} /\
  exists f, getitem (fcns Demo.runtime) "numba" = inr f.
Proof.
  destruct (unknown_backend_raises_key_error Demo.runtime)
    as (Hraise & Hkeys & _).
  assert (Hno : ~ In "none"%string jit_choices)
    by (intros [H|[H|[]]]; discriminate H).
  assert (Hin : In "numba"%string jit_choices) by (left; reflexivity).
  split; [repeat split; solve [lia | exact Hno | exact Hin]|].
  split.
  - apply (Hraise 5 1 true "none"%string Demo.start); [lia|exact Hno].
  - apply (proj1 (Hkeys "numba"%string) Hin).
Defined.

(** * Instances of the further properties *)

Lemma zero_samples_witness :
  0 < 2 /\
  estimate_pi_numba Demo.runtime 0 false Demo.start
  = Raised ZeroDivisionError Demo.start /\
  run_test Demo.runtime 0 2 false "numba" Demo.start =
  Raised ZeroDivisionError
    {| rng := rng Demo.start; clock_reads := S (clock_reads Demo.start);
       trace := trace Demo.start ++ [Call "numba" 0 false] |}.
Proof.
  destruct (zero_samples_raise_zero_division Demo.runtime) as [Hest Hrun].
  split; [lia|]. split; [apply Hest|].
  apply (Hrun 2 false Demo.start). lia.
Defined.








Lemma positive_integer_reads_numeral_witness :
  (0 < 10000000 /\
   (String.length (PyFloat.str_nat 10000000) <= PyStr.max_str_digits)%nat) /\
  positive_integer (PyFloat.str_nat 10000000) = inr 10000000.
Proof.
  assert (Hlen : (String.length (PyFloat.str_nat 10000000)
                  <= PyStr.max_str_digits)%nat)
    by (apply Nat.leb_le; vm_compute; reflexivity).
  split; [split; [lia|exact Hlen]|].
  apply (positive_integer_reads_decimal_numeral 10000000); [lia|exact Hlen].
Defined.



Lemma positive_integer_rejects_witness :
  (In "."%char (list_ascii_of_string "1.5") /\
   (nat_of_ascii "." < 128)%nat /\
   PyFloat.is_digit "." = false /\ PyStr.is_space "." = false /\
   "."%char <> "_"%char /\ "."%char <> "-"%char /\ "."%char <> "+"%char) /\
  positive_integer "1.5" = inl ValueError.
Proof.
  assert (Hin : In "."%char (list_ascii_of_string "1.5"))
    by (right; left; reflexivity).
  assert (Hascii : (nat_of_ascii "." < 128)%nat)
    by (apply Nat.ltb_lt; reflexivity).
  split;
    [repeat split; solve [exact Hin | exact Hascii | reflexivity | discriminate]|].
  apply (positive_integer_rejects_other_characters "1.5" "."%char Hin Hascii);
    solve [reflexivity | discriminate].
Defined.
